(** * blkzone: report and reset of zones on a zoned block device

    A shallow embedding of [sys-utils/blkzone.c].  The two command
    handlers, [blkzone_report] and [blkzone_reset], are written in a small
    trace-and-abort monad: every call into the kernel or into libc that
    the C code makes appears as an [event] of the trace, [err]/[errx]
    end the run with [Exit_failure], and a read outside an array ends it
    with [Out_of_bounds].  The kernel and sysfs are an [os] record of
    answers, so every theorem holds for all devices.

    Integers are [Z]; the width of each C type is written out with
    [u8], [u32], [u64] (LP64: [unsigned long] and [size_t] are 64 bit). *)

From Stdlib Require Import ZArith List String Ascii Bool Lia.
From Stdlib Require Import HexString DecimalString.
Import ListNotations.
Local Open Scope string_scope.
Local Open Scope Z_scope.

(** ** Machine integers *)

Definition u8  (x : Z) : Z := x mod 2^8.
Definition u32 (x : Z) : Z := x mod 2^32.
Definition u64 (x : Z) : Z := x mod 2^64.

(** [ARRAY_SIZE(arr)] of c.h: the number of elements of a static array. *)
Definition ARRAY_SIZE {A : Type} (arr : list A) : Z := Z.of_nat (List.length arr).

(** ** Data *)

(** [struct blk_zone] of <linux/blkzoned.h>: three 64-bit sector numbers
    and four 8-bit codes (the reserved padding is left out). *)
Record blk_zone := mk_blk_zone {
  bz_start   : Z;
  bz_len     : Z;
  bz_wp      : Z;
  bz_type    : Z;
  bz_cond    : Z;
  bz_non_seq : Z;
  bz_reset   : Z
}.

(** [struct blk_zone_report]: the request (sector, nr_zones) and, once the
    kernel has answered, the descriptors it filled in. *)
Record blk_zone_report := mk_blk_zone_report {
  zr_sector   : Z;
  zr_nr_zones : Z;
  zr_zones    : list blk_zone
}.

(** [struct blk_zone_range]. *)
Record blk_zone_range := mk_blk_zone_range {
  za_sector     : Z;
  za_nr_sectors : Z
}.

Definition sizeof_blk_zone_report : Z := 16.
Definition sizeof_blk_zone : Z := 64.

(** [struct blkzone_control] (the command pointer is not needed by the
    handlers and is left out). *)
Record blkzone_control := mk_ctl {
  devname       : string;
  total_sectors : Z;
  secsize       : Z;
  offset        : Z;
  length        : Z;
  verbose       : bool
}.

Definition set_geometry (ctl : blkzone_control) (total : Z) (ssz : Z) :=
  mk_ctl (devname ctl) total ssz (offset ctl) (length ctl) (verbose ctl).

Definition set_length (ctl : blkzone_control) (len : Z) :=
  mk_ctl (devname ctl) (total_sectors ctl) (secsize ctl) (offset ctl) len (verbose ctl).

Inductive open_mode := O_RDONLY | O_WRONLY.

(** ** Messages of err, errx and warnx *)

Inductive diagnostic :=
| Cannot_open (dev : string)
| Stat_failed (dev : string)
| Not_a_block_device (dev : string)
| Get_sectors_failed (dev : string)
| BLKSSZGET_failed (dev : string)
| Offset_greater_than_device_size (dev : string)
| Limiting_report (entries : Z)
| BLKREPORTZONE_failed (dev : string)
| Unable_to_determine_zone_size (dev : string)
| Not_aligned (dev : string) (off : Z) (zonesize : Z)
| BLKRESETZONE_failed (dev : string).

(** ** Events and the run monad *)

Inductive event :=
| Ev_sysfs_init (devno : Z)
| Ev_sysfs_read (devno : Z) (attr : string)
| Ev_open (dev : string) (mode : open_mode)
| Ev_fstat (fd : Z)
| Ev_get_sectors (fd : Z)
| Ev_get_sector_size (fd : Z)
| Ev_xmalloc (bytes : Z)
| Ev_report_zones (fd : Z) (sector : Z) (nr_zones : Z)
| Ev_reset_zones (fd : Z) (sector : Z) (nr_sectors : Z)
| Ev_warnx (d : diagnostic)
| Ev_printf (text : string)
| Ev_free
| Ev_close (fd : Z).

Inductive abort :=
| Exit_failure (d : diagnostic)
| Out_of_bounds.

Inductive result (A : Type) :=
| Val (a : A)
| Abort (x : abort).
Arguments Val {A} a.
Arguments Abort {A} x.

Definition run (A : Type) : Type := (list event * result A)%type.

Definition ret {A} (a : A) : run A := ([], Val a).

Definition bind {A B} (m : run A) (k : A -> run B) : run B :=
  match snd m with
  | Val a => ((fst m ++ fst (k a))%list, snd (k a))
  | Abort x => (fst m, Abort x)
  end.

Definition emit (e : event) : run unit := ([e], Val tt).
Definition call {A} (e : event) (answer : A) : run A := ([e], Val answer).
Definition stop {A} (x : abort) : run A := ([], Abort x).

Definition err  {A} (d : diagnostic) : run A := stop (Exit_failure d).
Definition errx {A} (d : diagnostic) : run A := stop (Exit_failure d).
Definition warnx (d : diagnostic) : run unit := emit (Ev_warnx d).
Definition printf (text : string) : run unit := emit (Ev_printf text).

Notation "x <- m ;; k" := (bind m (fun x => k))
  (at level 61, m at next level, right associativity).
Notation "m ;;; k" := (bind m (fun _ => k))
  (at level 61, right associativity).

(** What a trace shows on standard output and standard error, which
    requests it sent, and whether it opened the device. *)

Definition stdout_of (t : list event) : list string :=
  flat_map (fun e => match e with Ev_printf s => [s] | _ => [] end) t.

Definition warnings_of (t : list event) : list diagnostic :=
  flat_map (fun e => match e with Ev_warnx d => [d] | _ => [] end) t.

Definition report_requests (t : list event) : list (Z * Z * Z) :=
  flat_map (fun e => match e with
                     | Ev_report_zones fd s n => [(fd, s, n)]
                     | _ => [] end) t.

Definition allocations (t : list event) : list Z :=
  flat_map (fun e => match e with Ev_xmalloc b => [b] | _ => [] end) t.

Definition reset_requests (t : list event) : list blk_zone_range :=
  flat_map (fun e => match e with
                     | Ev_reset_zones _ s n => [mk_blk_zone_range s n]
                     | _ => [] end) t.

Definition opens (t : list event) : list string :=
  flat_map (fun e => match e with Ev_open d _ => [d] | _ => [] end) t.

(** ** printf conversions *)

Fixpoint spaces (n : nat) : string :=
  match n with
  | O => ""
  | S n' => String " " (spaces n')
  end.

Definition pad_left (width : nat) (s : string) : string :=
  spaces (width - String.length s) ++ s.

Definition hex_digits (n : Z) : string :=
  match n with
  | Zpos p => HexString.Raw.of_pos p ""
  | _ => "0"
  end.

Definition dec_digits (n : Z) : string :=
  NilZero.string_of_uint (N.to_uint (Z.to_N n)).

(** [%<width>lx] of a 64-bit value, [%<width>u] of an unsigned int,
    [%d] of a 32-bit value read as signed, [%PRIu64]. *)
Definition fmt_lx (width : nat) (x : Z) : string := pad_left width (hex_digits (u64 x)).
Definition fmt_u (width : nat) (x : Z) : string := pad_left width (dec_digits (u32 x)).
Definition fmt_d (x : Z) : string :=
  if u32 x <? 2^31 then dec_digits (u32 x) else "-" ++ dec_digits (2^32 - u32 x).
Definition fmt_u64 (x : Z) : string := dec_digits (u64 x).

Definition newline : string := String (ascii_of_nat 10) "".

(** ** The operating system

    Answers of the kernel, of sysfs and of lib/blkdev.c, as the handlers
    see them: a return code and, where the call fills a result, the
    value filled in. *)

Record os := mk_os {
  os_sysfs_devname_to_devno : string -> Z;
  os_sysfs_init             : Z -> Z;
  os_sysfs_read_u64         : Z -> string -> Z * Z;
  os_open                   : string -> open_mode -> Z;
  os_fstat                  : Z -> Z * Z;
  os_blkdev_get_sectors     : Z -> Z * Z;
  os_blkdev_get_sector_size : Z -> Z * Z;
  os_BLKREPORTZONE          : Z -> Z -> Z -> Z * blk_zone_report;
  os_BLKRESETZONE           : Z -> blk_zone_range -> Z
}.

(** [S_ISBLK] of <sys/stat.h>: (mode & S_IFMT) == S_IFBLK. *)
Definition S_ISBLK (st_mode : Z) : bool := Z.land st_mode 61440 =? 24576.

(** [major], [minor], [makedev] of <sys/sysmacros.h> (glibc encoding). *)
Definition major (dev : Z) : Z :=
  Z.lor (Z.land (Z.shiftr dev 32) 4294963200) (Z.land (Z.shiftr dev 8) 4095).
Definition minor (dev : Z) : Z :=
  Z.lor (Z.land (Z.shiftr dev 12) 4294967040) (Z.land dev 255).
Definition makedev (maj min : Z) : Z :=
  Z.lor (Z.lor (Z.shiftl (Z.land (u32 maj) 4095) 8)
               (Z.shiftl (Z.land (u32 maj) 4294963200) 32))
        (Z.lor (Z.land (u32 min) 255)
               (Z.shiftl (Z.land (u32 min) 4294967040) 12)).

(** A read of [arr[i]]: outside the array it is undefined in C, and ends
    the run here.  For the descriptor buffer the array is what the kernel
    filled in. *)
Definition load {A} (arr : list A) (i : Z) : run A :=
  if (0 <=? i) && (i <? ARRAY_SIZE arr) then
    match nth_error arr (Z.to_nat i) with
    | Some a => ret a
    | None => stop Out_of_bounds
    end
  else stop Out_of_bounds.

Section Handlers.

Variable sys : os.

Definition init_device (ctl : blkzone_control) (mode : open_mode)
  : run (Z * blkzone_control) :=
  fd <- call (Ev_open (devname ctl) mode) (os_open sys (devname ctl) mode) ;;
  if fd <? 0 then err (Cannot_open (devname ctl)) else
  sb <- call (Ev_fstat fd) (os_fstat sys fd) ;;
  if fst sb =? -1 then err (Stat_failed (devname ctl)) else
  if negb (S_ISBLK (snd sb)) then errx (Not_a_block_device (devname ctl)) else
  secs <- call (Ev_get_sectors fd) (os_blkdev_get_sectors sys fd) ;;
  if negb (fst secs =? 0) then err (Get_sectors_failed (devname ctl)) else
  ssz <- call (Ev_get_sector_size fd) (os_blkdev_get_sector_size sys fd) ;;
  if negb (fst ssz =? 0) then err (BLKSSZGET_failed (devname ctl)) else
  ret (fd, set_geometry ctl (snd secs) (snd ssz)).

(** *** blkzone report *)

Definition DEF_REPORT_LEN : Z := Z.shiftl 1 12.
Definition MAX_REPORT_LEN : Z := Z.shiftl 1 16.

Definition type_text : list string :=
  [ "RESERVED";
    "CONVENTIONAL";
    "SEQ_WRITE_REQUIRED";
    "SEQ_WRITE_PREFERRED" ].

Definition condition_str : list string :=
  [ "cv";
    "e0";
    "Oi";
    "Oe";
    "Cl";
    "x5"; "x6"; "x7"; "x8"; "x9"; "xA"; "xB";
    "ro";
    "fu";
    "OL" ].

(** The index expressions of the two table reads in the printf call. *)
Definition condition_index (cond : Z) : Z := Z.land cond (ARRAY_SIZE condition_str).
Definition type_index (type : Z) : Z := type.

Definition zone_line (start len wp reset non_seq cond : Z) (cond_s : string)
                     (type : Z) (type_s : string) : string :=
  "  start: " ++ fmt_lx 9 start ++ ", len " ++ fmt_lx 6 len ++
  ", wptr " ++ fmt_lx 6 (wp - start) ++
  " reset:" ++ fmt_u 0 reset ++ " non-seq:" ++ fmt_u 0 non_seq ++
  ", zcond:" ++ fmt_u 2 cond ++ "(" ++ cond_s ++
  ") [type: " ++ fmt_u 0 type ++ "(" ++ type_s ++ ")]" ++ newline.

(** The body of the for loop for one index: [true] to go on with i+1,
    [false] for the break. *)
Definition report_entry (zi : blk_zone_report) (i : Z) : run bool :=
  entry <- load (zr_zones zi) i ;;
  let type := bz_type entry in
  let start := bz_start entry in
  let wp := bz_wp entry in
  let cond := bz_cond entry in
  let len := bz_len entry in
  if len =? 0 then ret false else
  cond_s <- load condition_str (condition_index cond) ;;
  type_s <- load type_text (type_index type) ;;
  printf (zone_line start len wp (bz_reset entry) (bz_non_seq entry)
                    cond cond_s type type_s) ;;;
  ret true.

(** for (i = 0; i < zi->nr_zones; i++): [todo] counts the indices from [i]
    up to nr_zones, so the test i < nr_zones is [todo] being a successor;
    i stays below nr_zones, a 32-bit value, and i + 1 does not wrap. *)
Fixpoint report_loop (todo : nat) (zi : blk_zone_report) (i : Z) : run unit :=
  match todo with
  | O => ret tt
  | S todo' =>
      go_on <- report_entry zi i ;;
      if go_on : bool then report_loop todo' zi (i + 1) else ret tt
  end.

Definition blkzone_report (ctl : blkzone_control) : run Z :=
  opened <- init_device ctl O_RDONLY ;;
  let fd := fst opened in
  let ctl := snd opened in
  if offset ctl >? total_sectors ctl
  then errx (Offset_greater_than_device_size (devname ctl)) else
  let ctl := if length ctl <? 1 then set_length ctl 1 else ctl in
  ctl <- (if length ctl >? MAX_REPORT_LEN
          then let ctl := set_length ctl MAX_REPORT_LEN in
               warnx (Limiting_report (length ctl)) ;;; ret ctl
          else ret ctl) ;;
  emit (Ev_xmalloc (u64 (sizeof_blk_zone_report
                         + u64 (length ctl * sizeof_blk_zone)))) ;;;
  let nr_zones := u32 (length ctl) in
  let sector := offset ctl in
  answer <- call (Ev_report_zones fd sector nr_zones)
                 (os_BLKREPORTZONE sys fd sector nr_zones) ;;
  if fst answer =? -1 then err (BLKREPORTZONE_failed (devname ctl)) else
  let zi := snd answer in
  (if verbose ctl
   then printf ("Found " ++ fmt_d (zr_nr_zones zi) ++ " zones" ++ newline)
   else ret tt) ;;;
  printf ("Zones returned: " ++ fmt_u 0 (zr_nr_zones zi) ++ newline) ;;;
  report_loop (Z.to_nat (zr_nr_zones zi)) zi 0 ;;;
  emit Ev_free ;;;
  emit (Ev_close fd) ;;;
  ret 0.

(** *** blkzone reset *)

(** The sysfs context is only a handle on [devno]; its release by
    sysfs_deinit leaves no event. *)
Definition blkdev_chunk_sectors (dname : string) : run Z :=
  let devno := os_sysfs_devname_to_devno sys dname in
  let major_no := major devno in
  let block_no := Z.land (minor devno) (Z.lnot 15) in
  let devno := makedev major_no block_no in
  rc <- call (Ev_sysfs_init devno) (os_sysfs_init sys devno) ;;
  if negb (rc =? 0) then ret 0 else
  rd <- call (Ev_sysfs_read devno "queue/chunk_sectors")
             (os_sysfs_read_u64 sys devno "queue/chunk_sectors") ;;
  ret (if fst rd =? 0 then snd rd else 0).

Definition blkzone_reset (ctl : blkzone_control) : run Z :=
  zonesize <- blkdev_chunk_sectors (devname ctl) ;;
  if zonesize =? 0
  then errx (Unable_to_determine_zone_size (devname ctl)) else
  opened <- init_device ctl O_WRONLY ;;
  let fd := fst opened in
  let ctl := snd opened in
  if negb (Z.land (offset ctl) (u64 (zonesize - 1)) =? 0)
  then errx (Not_aligned (devname ctl) (offset ctl) zonesize) else
  if offset ctl >? total_sectors ctl
  then errx (Offset_greater_than_device_size (devname ctl)) else
  let zlen := u64 (length ctl * zonesize) in
  let zlen := if u64 (offset ctl + zlen) >? total_sectors ctl
              then u64 (total_sectors ctl - length ctl)
              else zlen in
  let za := mk_blk_zone_range (offset ctl) zlen in
  rc <- call (Ev_reset_zones fd (za_sector za) (za_nr_sectors za))
             (os_BLKRESETZONE sys fd za) ;;
  if rc =? -1 then err (BLKRESETZONE_failed (devname ctl)) else
  (if verbose ctl
   then printf (devname ctl ++ ": successfully reset in range from "
                ++ fmt_u64 (offset ctl) ++ ", to " ++ fmt_u64 zlen)
   else ret tt) ;;;
  emit (Ev_close fd) ;;;
  ret 0.

End Handlers.

(** ** Reading a run *)

(** A descriptor whose two table reads stay inside the tables. *)
Definition in_tables (e : blk_zone) : bool :=
  ((0 <=? condition_index (bz_cond e))
   && (condition_index (bz_cond e) <? ARRAY_SIZE condition_str))
  && ((0 <=? type_index (bz_type e))
      && (type_index (bz_type e) <? ARRAY_SIZE type_text)).

(** The line printed for a descriptor. *)
Definition entry_text (e : blk_zone) : string :=
  zone_line (bz_start e) (bz_len e) (bz_wp e) (bz_reset e) (bz_non_seq e)
            (bz_cond e)
            (nth (Z.to_nat (condition_index (bz_cond e))) condition_str "")
            (bz_type e)
            (nth (Z.to_nat (type_index (bz_type e))) type_text "").

(** The lines printed before the descriptor lines. *)
Definition report_header (verb : bool) (zi : blk_zone_report) : list string :=
  (if verb then ["Found " ++ fmt_d (zr_nr_zones zi) ++ " zones" ++ newline] else [])
  ++ ["Zones returned: " ++ fmt_u 0 (zr_nr_zones zi) ++ newline].

(** The three failures of reset's own checks. *)
Definition validation_failure (d : diagnostic) : bool :=
  match d with
  | Unable_to_determine_zone_size _ => true
  | Not_aligned _ _ _ => true
  | Offset_greater_than_device_size _ => true
  | _ => false
  end.

(** What a run of [init_device] can be: a device error after the open, or
    the descriptor together with the control block with its geometry
    filled in.  It prints nothing and sends no zone request. *)
Inductive init_cases (ctl : blkzone_control) : run (Z * blkzone_control) -> Prop :=
| init_fails t d :
    opens t = [devname ctl] ->
    reset_requests t = [] -> report_requests t = [] -> warnings_of t = [] ->
    stdout_of t = [] -> allocations t = [] ->
    validation_failure d = false ->
    init_cases ctl (t, Abort (Exit_failure d))
| init_opens t fd total ssz :
    opens t = [devname ctl] ->
    reset_requests t = [] -> report_requests t = [] -> warnings_of t = [] ->
    stdout_of t = [] -> allocations t = [] ->
    init_cases ctl (t, Val (fd, set_geometry ctl total ssz)).

(** The length option as blkzone_report normalises it, with the
    warning the clamp prints. *)
Definition normalised (len n : Z) (w : list event) : Prop :=
  (len < 1 /\ n = 1 /\ w = []) \/
  (1 <= len <= MAX_REPORT_LEN /\ n = len /\ w = []) \/
  (MAX_REPORT_LEN < len /\ n = MAX_REPORT_LEN /\
   w = [Ev_warnx (Limiting_report MAX_REPORT_LEN)]).

(** The run of blkzone_report after an answered BLKREPORTZONE: header,
    descriptor lines, and the release of buffer and descriptor unless
    the loop read outside an array. *)
Definition report_tail (fd : Z) (verb : bool) (zi : blk_zone_report) : run Z :=
  let loop := report_loop (Z.to_nat (zr_nr_zones zi)) zi 0 in
  ((map Ev_printf (report_header verb zi) ++ fst loop ++
    match snd loop with Val _ => [Ev_free; Ev_close fd] | Abort _ => [] end)%list,
   match snd loop with Val _ => Val 0 | Abort x => Abort x end).

(** The range blkzone_reset asks the kernel to reset. *)
Definition reset_range (off len zonesize total : Z) : blk_zone_range :=
  mk_blk_zone_range off
    (if u64 (off + u64 (len * zonesize)) >? total
     then u64 (total - len)
     else u64 (len * zonesize)).

(** Every run of reset: the zone size is read first; then one of the
    checks ends the run before any request, or the range is sent. *)
Inductive reset_cases (sys : os) (ctl : blkzone_control) : run Z -> Prop :=
| reset_no_zone_size tz :
    blkdev_chunk_sectors sys (devname ctl) = (tz, Val 0) ->
    reset_cases sys ctl
      (tz, Abort (Exit_failure (Unable_to_determine_zone_size (devname ctl))))
| reset_no_device tz zonesize t d :
    blkdev_chunk_sectors sys (devname ctl) = (tz, Val zonesize) ->
    zonesize <> 0 ->
    init_device sys ctl O_WRONLY = (t, Abort (Exit_failure d)) ->
    validation_failure d = false ->
    reset_cases sys ctl ((tz ++ t)%list, Abort (Exit_failure d))
| reset_not_aligned tz zonesize t fd total ssz :
    blkdev_chunk_sectors sys (devname ctl) = (tz, Val zonesize) ->
    zonesize <> 0 ->
    init_device sys ctl O_WRONLY = (t, Val (fd, set_geometry ctl total ssz)) ->
    Z.land (offset ctl) (u64 (zonesize - 1)) <> 0 ->
    reset_cases sys ctl
      ((tz ++ t)%list,
       Abort (Exit_failure (Not_aligned (devname ctl) (offset ctl) zonesize)))
| reset_offset_beyond tz zonesize t fd total ssz :
    blkdev_chunk_sectors sys (devname ctl) = (tz, Val zonesize) ->
    zonesize <> 0 ->
    init_device sys ctl O_WRONLY = (t, Val (fd, set_geometry ctl total ssz)) ->
    Z.land (offset ctl) (u64 (zonesize - 1)) = 0 ->
    offset ctl > total ->
    reset_cases sys ctl
      ((tz ++ t)%list,
       Abort (Exit_failure (Offset_greater_than_device_size (devname ctl))))
| reset_sent tz zonesize t fd total ssz :
    blkdev_chunk_sectors sys (devname ctl) = (tz, Val zonesize) ->
    zonesize <> 0 ->
    init_device sys ctl O_WRONLY = (t, Val (fd, set_geometry ctl total ssz)) ->
    Z.land (offset ctl) (u64 (zonesize - 1)) = 0 ->
    offset ctl <= total ->
    let za := reset_range (offset ctl) (length ctl) zonesize total in
    let failed := os_BLKRESETZONE sys fd za =? -1 in
    reset_cases sys ctl
      ((tz ++ t ++ [Ev_reset_zones fd (za_sector za) (za_nr_sectors za)] ++
        (if failed then []
         else (if verbose ctl
               then [Ev_printf (devname ctl ++ ": successfully reset in range from "
                                ++ fmt_u64 (offset ctl) ++ ", to "
                                ++ fmt_u64 (za_nr_sectors za))]
               else []) ++ [Ev_close fd]))%list,
       if failed then Abort (Exit_failure (BLKRESETZONE_failed (devname ctl)))
       else Val 0).

(** ** Sample devices *)

(** A block device with descriptor 3, [total] sectors of 512 bytes, zone
    size [zonesize], whose report ioctl hands out the first descriptors
    of [zones]. *)
Definition sample_os (zonesize total : Z) (zones : list blk_zone) : os :=
  mk_os (fun _ => 2064)
        (fun _ => 0)
        (fun _ _ => (0, zonesize))
        (fun _ _ => 3)
        (fun _ => (0, 24576))
        (fun _ => (0, total))
        (fun _ => (0, 512))
        (fun _ sector nr =>
           (0, mk_blk_zone_report sector (Z.min nr (ARRAY_SIZE zones))
                                  (firstn (Z.to_nat nr) zones)))
        (fun _ _ => 0).

Definition sample_ctl (off len : Z) : blkzone_control :=
  mk_ctl "/dev/sdb" 0 0 off len false.

(** Two conventional-size zones, the second one open. *)
Definition two_zones : list blk_zone :=
  [ mk_blk_zone 0 65536 0 1 0 0 0;
    mk_blk_zone 65536 65536 65636 2 2 0 1 ].

(** A zone in condition 15 (offline). *)
Definition offline_zone : list blk_zone :=
  [ mk_blk_zone 0 65536 0 2 15 0 0 ].

(** Two zones, an end marker of length zero, and one more zone. *)
Definition zones_with_end : list blk_zone :=
  [ mk_blk_zone 0 65536 0 1 0 0 0;
    mk_blk_zone 65536 65536 65636 2 2 0 1;
    mk_blk_zone 0 0 0 0 0 0 0;
    mk_blk_zone 196608 65536 196608 2 1 0 0 ].

(** 1,000,000 sectors in zones of 65536. *)
Definition disk : os := sample_os 65536 1000000 two_zones.
Definition disk_offline : os := sample_os 65536 1000000 offline_zone.
Definition disk_with_end : os := sample_os 65536 1000000 zones_with_end.

(** A device whose chunk size, 3 * 65536 sectors, is not a power of two. *)
Definition disk_96M : os := sample_os 196608 1000000 two_zones.

(** A device without a readable queue/chunk_sectors. *)
Definition disk_no_chunk : os := sample_os 0 1000000 two_zones.

(** ** The command line

    The command table, [name_to_command], [usage] and [main].  What libc
    and the headers that are not part of blkzone.c supply is taken as
    given: the texts of c.h in a record, and the option scanner and the
    number parser as answers. *)

(** [struct blkzone_command]. *)
Record blkzone_command := mk_command {
  cmd_name    : string;
  cmd_handler : blkzone_control -> run Z;
  cmd_help    : string
}.

(** The usage texts of c.h, the version text and the program name. *)
Record c_h := mk_c_h {
  USAGE_HEADER    : string;
  USAGE_SEPARATOR : string;
  USAGE_OPTIONS   : string;
  USAGE_HELP      : string;
  USAGE_VERSION   : string;
  USAGE_MAN_TAIL  : string -> string;
  UTIL_LINUX_VERSION : string;
  program_invocation_short_name : string
}.

(** One scan of an argument vector by getopt_long with the option string
    of main: the values it returns before the final -1, each with its
    optarg; optind at that point; and the vector as it leaves it (GNU
    getopt moves the operands to the end). *)
Record getopt_scan := mk_getopt_scan {
  go_options : list (Z * string);
  go_optind  : Z;
  go_argv    : list string
}.

(** getopt_long, and strtosize_or_err of lib/strutils.c: the number, or
    [None] when it ends the process with the message it was given. *)
Record libc := mk_libc {
  lc_getopt_long : list string -> getopt_scan;
  lc_strtosize   : string -> option Z
}.

Inductive stream := stdout | stderr.

Definition EXIT_SUCCESS : Z := 0.
Definition EXIT_FAILURE : Z := 1.

(** The messages of main's own errx calls, of errtryhelp, and of the two
    strtosize_or_err calls. *)
Inductive main_diagnostic :=
| Not_valid_command_name (name : string)
| Failed_to_parse_number_of_zones (arg : string)
| Failed_to_parse_zone_offset (arg : string)
| Try_help
| No_command_specified
| No_device_specified
| Unexpected_number_of_arguments.

(** How a run of main ends: with an exit status (return from main, or
    exit in usage), with one of main's error exits, or inside the
    handler. *)
Inductive main_end :=
| Status (code : Z)
| Usage_error (d : main_diagnostic)
| Stopped (x : abort).

Definition set_offset (ctl : blkzone_control) (off : Z) :=
  mk_ctl (devname ctl) (total_sectors ctl) (secsize ctl) off (length ctl) (verbose ctl).

Definition set_verbose (ctl : blkzone_control) :=
  mk_ctl (devname ctl) (total_sectors ctl) (secsize ctl) (offset ctl) (length ctl) true.

Definition set_devname (ctl : blkzone_control) (dev : string) :=
  mk_ctl dev (total_sectors ctl) (secsize ctl) (offset ctl) (length ctl) (verbose ctl).

(** The value of a character constant. *)
Definition chr (a : ascii) : Z := Z.of_N (N_of_ascii a).

(** [%-<width>s]. *)
Definition pad_right (width : nat) (s : string) : string :=
  s ++ spaces (width - String.length s).

(** [*s != '-'] for a C string: the empty string starts with its
    terminator. *)
Definition not_an_option (s : string) : bool :=
  match s with
  | String c _ => negb (Ascii.eqb c "-")
  | EmptyString => true
  end.

Section Main.

Variable sys : os.
Variable lc : libc.
Variable txt : c_h.

Definition commands : list blkzone_command :=
  [ mk_command "report" (blkzone_report sys)
               "Report zone information about the given device";
    mk_command "reset" (blkzone_reset sys)
               "Reset a range of zones." ].

(** The for loop of name_to_command over the entries from index i on. *)
Fixpoint name_to_command_from (cmds : list blkzone_command) (name : string)
  : option blkzone_command :=
  match cmds with
  | [] => None
  | c :: rest =>
      if String.eqb (cmd_name c) name then Some c
      else name_to_command_from rest name
  end.

Definition name_to_command (name : string) : option blkzone_command :=
  name_to_command_from commands name.

(** usage: the texts written to [out], in order, and the status of the
    exit that ends it. *)
Definition usage_command_line (c : blkzone_command) : string :=
  " " ++ pad_right 11 (cmd_name c) ++ "  " ++ cmd_help c ++ newline.

Definition usage (out : stream) : list string * Z :=
  (app [ USAGE_HEADER txt;
         " " ++ program_invocation_short_name txt
             ++ " <command> [options] <device>" ++ newline;
         USAGE_SEPARATOR txt;
         "Run zone command on the given block device." ++ newline;
         newline ++ "Commands:" ++ newline ]
     (app (map usage_command_line commands)
       [ USAGE_OPTIONS txt;
         " -o, --offset <sector>  start sector of zone to act (in 512-byte sectors)"
           ++ newline;
         " -l, --length <number>  maximum number of zones" ++ newline;
         " -v, --verbose          display more details" ++ newline;
         USAGE_SEPARATOR txt;
         USAGE_HELP txt;
         USAGE_VERSION txt;
         USAGE_MAN_TAIL txt "blkzone(8)" ]),
   match out with stderr => EXIT_FAILURE | stdout => EXIT_SUCCESS end).

(** The switch of main for one value [c] returned by getopt_long: the
    control block to go on with, or the end of the run. *)
Definition option_case (ctl : blkzone_control) (c : Z) (optarg : string)
  : list event * (blkzone_control + main_end) :=
  if c =? chr "h" then
    (map Ev_printf (fst (usage stdout)), inr (Status (snd (usage stdout))))
  else if c =? chr "l" then
    match lc_strtosize lc optarg with
    | Some n => ([], inl (set_length ctl n))
    | None => ([], inr (Usage_error (Failed_to_parse_number_of_zones optarg)))
    end
  else if c =? chr "o" then
    match lc_strtosize lc optarg with
    | Some n => ([], inl (set_offset ctl n))
    | None => ([], inr (Usage_error (Failed_to_parse_zone_offset optarg)))
    end
  else if c =? chr "v" then ([], inl (set_verbose ctl))
  else if c =? chr "V" then
    ([Ev_printf (UTIL_LINUX_VERSION txt)], inr (Status EXIT_SUCCESS))
  else ([], inr (Usage_error Try_help)).

(** The while loop of main over the values getopt_long returns. *)
Fixpoint option_loop (opts : list (Z * string)) (ctl : blkzone_control)
  : list event * (blkzone_control + main_end) :=
  match opts with
  | [] => ([], inl ctl)
  | (c, optarg) :: rest =>
      match option_case ctl c optarg with
      | (t, inl ctl') => let r := option_loop rest ctl' in ((t ++ fst r)%list, snd r)
      | (t, inr e) => (t, inr e)
      end
  end.

(** main after the options: the checks of command and device, and the
    call of the handler. *)
Definition dispatch (command : option blkzone_command) (ctl : blkzone_control)
                    (argc : Z) (argv : list string) (optind : Z)
  : list event * main_end :=
  match command with
  | None => ([], Usage_error No_command_specified)
  | Some cmd =>
      if optind =? argc then ([], Usage_error No_device_specified) else
      match (if 0 <=? optind then nth_error argv (Z.to_nat optind) else None) with
      | None => ([], Stopped Out_of_bounds)
      | Some dev =>
          let ctl := set_devname ctl dev in
          let optind := optind + 1 in
          if negb (optind =? argc)
          then ([], Usage_error Unexpected_number_of_arguments) else
          let r := cmd_handler cmd ctl in
          match snd r with
          | Val rc =>
              (fst r, Status (if rc <? 0 then EXIT_FAILURE else EXIT_SUCCESS))
          | Abort x => (fst r, Stopped x)
          end
      end
  end.

(** main from the getopt loop on, with the command found so far and
    the argument vector as the loop sees it. *)
Definition main_options (command : option blkzone_command)
                        (ctl : blkzone_control) (argv : list string)
  : list event * main_end :=
  let argc := Z.of_nat (List.length argv) in
  let scan := lc_getopt_long lc argv in
  match option_loop (go_options scan) ctl with
  | (t, inr e) => (t, e)
  | (t, inl ctl) =>
      let r := dispatch command ctl argc (go_argv scan) (go_optind scan) in
      ((t ++ fst r)%list, snd r)
  end.

(** main.  The locale set-up and the registration of close_stdout leave
    no event; a command word is taken off the front of the vector before
    the options are scanned. *)
Definition main (argv : list string) : list event * main_end :=
  let argc := Z.of_nat (List.length argv) in
  let ctl := mk_ctl "" 0 0 0 0 false in
  if (2 <=? argc) && not_an_option (nth 1 argv "") then
    match name_to_command (nth 1 argv "") with
    | None => ([], Usage_error (Not_valid_command_name (nth 1 argv "")))
    | Some cmd => main_options (Some cmd) ctl (tl argv)
    end
  else main_options None ctl argv.

End Main.

(** A scanner that reports the given options and leaves the vector as it
    is, with a parser of decimal numbers. *)
Definition sample_libc (opts : list (Z * string)) (optind : Z) : libc :=
  mk_libc (fun argv => mk_getopt_scan opts optind argv)
          (fun s => option_map (fun d => Z.of_N (N.of_uint d))
                               (NilZero.uint_of_string s)).

Definition sample_texts : c_h :=
  mk_c_h "" "" "" "" "" (fun s => s) "blkzone from util-linux" "blkzone".

(** ** More ways to read a run *)

(** The opens of a trace with their access modes, the descriptors it
    closes, and the events that reach the device or sysfs. *)
Definition open_calls (t : list event) : list (string * open_mode) :=
  flat_map (fun e => match e with Ev_open d m => [(d, m)] | _ => [] end) t.

Definition closes (t : list event) : list Z :=
  flat_map (fun e => match e with Ev_close fd => [fd] | _ => [] end) t.

Definition device_event (e : event) : bool :=
  match e with
  | Ev_printf _ | Ev_warnx _ | Ev_xmalloc _ | Ev_free => false
  | _ => true
  end.

(** A run of main that got as far as the handler. *)
Definition handler_run sys lc txt (argv : list string)
                       (cmd : blkzone_command) (ctl : blkzone_control) : Prop :=
  let scan := lc_getopt_long lc (tl argv) in
  (2 <= List.length argv)%nat /\
  name_to_command sys (nth 1 argv "") = Some cmd /\
  (exists ctl0 dev,
      option_loop sys lc txt (go_options scan) (mk_ctl "" 0 0 0 0 false)
      = ([], inl ctl0) /\
      0 <= go_optind scan /\
      nth_error (go_argv scan) (Z.to_nat (go_optind scan)) = Some dev /\
      go_optind scan + 1 = Z.of_nat (List.length (tl argv)) /\
      ctl = set_devname ctl0 dev) /\
  main sys lc txt argv
  = (fst (cmd_handler cmd ctl),
     match snd (cmd_handler cmd ctl) with
     | Val rc => Status (if rc <? 0 then EXIT_FAILURE else EXIT_SUCCESS)
     | Abort x => Stopped x
     end).

(** The third partition of the second SCSI disk, 8:19; the disk itself is
    8:16. *)
Definition disk_partition : os :=
  mk_os (fun _ => 2067)
        (os_sysfs_init disk) (os_sysfs_read_u64 disk) (os_open disk)
        (os_fstat disk) (os_blkdev_get_sectors disk)
        (os_blkdev_get_sector_size disk) (os_BLKREPORTZONE disk)
        (os_BLKRESETZONE disk).

(** blkzone report /dev/sdb, and blkzone frobnicate /dev/sda. *)
Definition report_argv : list string := ["blkzone"; "report"; "/dev/sdb"].
Definition unknown_argv : list string := ["blkzone"; "frobnicate"; "/dev/sda"].

(** * Properties *)

(** ** The run monad and the tables *)

Lemma bind_ret_l {A B} (a : A) (k : A -> run B) : bind (ret a) k = k a.
Proof. unfold bind, ret; cbn. now destruct (k a). Qed.

Lemma bind_stop {A B} (x : abort) (k : A -> run B) : bind (stop x) k = stop x.
Proof. reflexivity. Qed.

Lemma bind_call {A B} (e : event) (a : A) (k : A -> run B) :
  bind (call e a) k = (e :: fst (k a), snd (k a)).
Proof. reflexivity. Qed.

Lemma bind_emit {B} (e : event) (k : unit -> run B) :
  bind (emit e) k = (e :: fst (k tt), snd (k tt)).
Proof. reflexivity. Qed.

Lemma bind_val {A B} (t : list event) (a : A) (k : A -> run B) :
  bind (t, Val a) k = ((t ++ fst (k a))%list, snd (k a)).
Proof. reflexivity. Qed.

Lemma bind_abort {A B} (t : list event) (x : abort) (k : A -> run B) :
  bind (t, Abort x) k = (t, Abort x).
Proof. reflexivity. Qed.

Lemma load_inside {A} (arr : list A) (i : Z) (d : A) :
  0 <= i < ARRAY_SIZE arr -> load arr i = ret (nth (Z.to_nat i) arr d).
Proof.
  intros [H0 H1]. unfold load, ARRAY_SIZE in *.
  destruct (Z.leb_spec 0 i); [|lia].
  destruct (Z.ltb_spec i (Z.of_nat (List.length arr))); [|lia]. cbn.
  destruct (nth_error arr (Z.to_nat i)) eqn:E.
  - now rewrite (nth_error_nth _ _ d E).
  - apply nth_error_None in E. lia.
Qed.

Lemma load_outside {A} (arr : list A) (i : Z) :
  ~ (0 <= i < ARRAY_SIZE arr) -> load arr i = stop Out_of_bounds.
Proof.
  intros H. unfold load.
  destruct (Z.leb_spec 0 i), (Z.ltb_spec i (ARRAY_SIZE arr)); cbn; try reflexivity.
  lia.
Qed.

Lemma load_nth_error {A} (arr : list A) (i : Z) (a : A) :
  0 <= i -> nth_error arr (Z.to_nat i) = Some a -> load arr i = ret a.
Proof.
  intros H0 E. unfold load, ARRAY_SIZE.
  assert (Z.to_nat i < List.length arr)%nat by (apply nth_error_Some; congruence).
  destruct (Z.leb_spec 0 i); [|lia].
  destruct (Z.ltb_spec i (Z.of_nat (List.length arr))); [|lia]. cbn.
  now rewrite E.
Qed.

Lemma condition_index_range (cond : Z) :
  0 <= cond -> 0 <= condition_index cond <= 15.
Proof.
  intros H. unfold condition_index.
  change (ARRAY_SIZE condition_str) with (Z.ones 4).
  rewrite Z.land_ones by lia.
  pose proof (Z.mod_pos_bound cond (2^4)). lia.
Qed.

(** The mask keeps the low four bits, so the one code of 0..255 in sixteen
    that ends in 15 is read at index 15, past the fifteen entries. *)
Lemma condition_index_inside_iff (cond : Z) :
  0 <= cond ->
  (condition_index cond < ARRAY_SIZE condition_str <-> cond mod 16 <> 15).
Proof.
  intros H. unfold condition_index.
  change (ARRAY_SIZE condition_str) with (Z.ones 4).
  rewrite Z.land_ones by lia.
  change (Z.ones 4) with 15. change (2^4) with 16.
  pose proof (Z.mod_pos_bound cond 16). lia.
Qed.

(** The condition read leaves the table exactly for the codes whose low
    four bits are all set. *)
Lemma condition_lookup_cases (cond : Z) :
  0 <= cond ->
  (load condition_str (condition_index cond) = stop Out_of_bounds
   <-> cond mod 16 = 15).
Proof.
  intros H. pose proof (condition_index_range cond H) as R.
  pose proof (condition_index_inside_iff cond H) as I.
  split.
  - intros L. destruct (Z.eq_dec (cond mod 16) 15) as [|N]; [assumption|].
    apply I in N. rewrite (load_inside _ _ "") in L by lia. discriminate.
  - intros E. apply load_outside. lia.
Qed.

(** ** init_device *)

Lemma init_device_cases sys ctl mode : init_cases ctl (init_device sys ctl mode).
Proof.
  unfold init_device.
  rewrite bind_call.
  destruct (_ <? 0); cbn [fst snd]; [now constructor|].
  rewrite bind_call. destruct (_ =? -1); cbn [fst snd]; [now constructor|].
  destruct (negb (S_ISBLK _)); cbn [fst snd]; [now constructor|].
  rewrite bind_call. destruct (negb _); cbn [fst snd]; [now constructor|].
  rewrite bind_call. destruct (negb _); cbn [fst snd]; [now constructor|].
  now constructor.
Qed.

(** The length option plays no part in opening the device. *)
Lemma init_device_set_length sys ctl mode len :
  init_device sys (set_length ctl len) mode =
  (fst (init_device sys ctl mode),
   match snd (init_device sys ctl mode) with
   | Val (fd, c) => Val (fd, set_length c len)
   | Abort x => Abort x
   end).
Proof.
  unfold init_device. cbn [devname set_length].
  rewrite ?bind_call.
  destruct (_ <? 0); cbn [fst snd]; [reflexivity|].
  rewrite ?bind_call. destruct (_ =? -1); cbn [fst snd]; [reflexivity|].
  destruct (negb (S_ISBLK _)); cbn [fst snd]; [reflexivity|].
  rewrite ?bind_call. destruct (negb _); cbn [fst snd]; [reflexivity|].
  rewrite ?bind_call. destruct (negb _); cbn [fst snd]; reflexivity.
Qed.

(** ** The projections of a trace *)

Lemma stdout_of_app t1 t2 : stdout_of (t1 ++ t2) = (stdout_of t1 ++ stdout_of t2)%list.
Proof. apply flat_map_app. Qed.

Lemma warnings_of_app t1 t2 :
  warnings_of (t1 ++ t2) = (warnings_of t1 ++ warnings_of t2)%list.
Proof. apply flat_map_app. Qed.

Lemma report_requests_app t1 t2 :
  report_requests (t1 ++ t2) = (report_requests t1 ++ report_requests t2)%list.
Proof. apply flat_map_app. Qed.

Lemma reset_requests_app t1 t2 :
  reset_requests (t1 ++ t2) = (reset_requests t1 ++ reset_requests t2)%list.
Proof. apply flat_map_app. Qed.

Lemma allocations_app t1 t2 :
  allocations (t1 ++ t2) = (allocations t1 ++ allocations t2)%list.
Proof. apply flat_map_app. Qed.

Lemma opens_app t1 t2 : opens (t1 ++ t2) = (opens t1 ++ opens t2)%list.
Proof. apply flat_map_app. Qed.

Lemma stdout_of_prints lines : stdout_of (map Ev_printf lines) = lines.
Proof. induction lines as [|l lines IH]; cbn; [|rewrite <- IH at 2]; reflexivity. Qed.

Lemma prints_are_silent lines :
  warnings_of (map Ev_printf lines) = [] /\
  report_requests (map Ev_printf lines) = [] /\
  allocations (map Ev_printf lines) = [].
Proof. induction lines; cbn; auto. Qed.

Lemma in_tables_true e :
  in_tables e = true ->
  0 <= condition_index (bz_cond e) < ARRAY_SIZE condition_str /\
  0 <= type_index (bz_type e) < ARRAY_SIZE type_text.
Proof. unfold in_tables. rewrite !andb_true_iff. lia. Qed.

Lemma in_tables_false e :
  in_tables e = false ->
  ~ (0 <= condition_index (bz_cond e) < ARRAY_SIZE condition_str) \/
  ~ (0 <= type_index (bz_type e) < ARRAY_SIZE type_text).
Proof. unfold in_tables. rewrite !andb_false_iff. lia. Qed.

Lemma report_entry_cases zi i :
  0 <= i ->
  match nth_error (zr_zones zi) (Z.to_nat i) with
  | None => report_entry zi i = stop Out_of_bounds
  | Some e =>
      if bz_len e =? 0 then report_entry zi i = ret false
      else if in_tables e
           then report_entry zi i = ([Ev_printf (entry_text e)], Val true)
           else report_entry zi i = stop Out_of_bounds
  end.
Proof.
  intros Hi. unfold report_entry.
  destruct (nth_error (zr_zones zi) (Z.to_nat i)) as [e|] eqn:E.
  - rewrite (load_nth_error _ _ _ Hi E), bind_ret_l.
    destruct (bz_len e =? 0); [reflexivity|].
    destruct (in_tables e) eqn:T.
    + apply in_tables_true in T as [Hc Ht].
      rewrite (load_inside _ _ "" Hc), bind_ret_l.
      rewrite (load_inside _ _ "" Ht), bind_ret_l.
      reflexivity.
    + apply in_tables_false in T as [Hc|Ht].
      * now rewrite (load_outside _ _ Hc).
      * destruct (Z_lt_dec (condition_index (bz_cond e)) (ARRAY_SIZE condition_str)) as [L|L];
        [destruct (Z_le_dec 0 (condition_index (bz_cond e))) as [L0|L0]|].
        -- rewrite (load_inside _ _ "" (conj L0 L)), bind_ret_l.
           now rewrite (load_outside _ _ Ht).
        -- rewrite load_outside by lia. reflexivity.
        -- rewrite load_outside by lia. reflexivity.
  - rewrite load_outside; [reflexivity|].
    apply nth_error_None in E. unfold ARRAY_SIZE. lia.
Qed.

Lemma skipn_nth_error {A} (l : list A) n a :
  nth_error l n = Some a -> skipn n l = a :: skipn (S n) l.
Proof.
  revert l. induction n as [|n IH]; intros [|b l] E; try discriminate.
  - now inversion E.
  - cbn [skipn]. rewrite (IH l E). reflexivity.
Qed.

Lemma report_loop_shape zi : forall todo i, 0 <= i ->
  exists printed rest,
    firstn todo (skipn (Z.to_nat i) (zr_zones zi)) = (printed ++ rest)%list /\
    fst (report_loop todo zi i) = map Ev_printf (map entry_text printed) /\
    Forall (fun e => bz_len e <> 0 /\ in_tables e = true) printed /\
    match rest with
    | [] => snd (report_loop todo zi i) =
            if (todo <=? List.length (skipn (Z.to_nat i) (zr_zones zi)))%nat
            then Val tt else Abort Out_of_bounds
    | z :: _ =>
        (bz_len z = 0 /\ snd (report_loop todo zi i) = Val tt) \/
        (bz_len z <> 0 /\ in_tables z = false /\
         snd (report_loop todo zi i) = Abort Out_of_bounds)
    end.
Proof.
  induction todo as [|todo IH]; intros i Hi.
  - exists [], []. cbn. auto.
  - pose proof (report_entry_cases zi i Hi) as C.
    cbn [report_loop].
    destruct (nth_error (zr_zones zi) (Z.to_nat i)) as [e|] eqn:E.
    + rewrite (skipn_nth_error _ _ _ E). cbn [firstn].
      revert C. destruct (Z.eqb_spec (bz_len e) 0) as [L|L]; intros C.
      * rewrite C, bind_ret_l. exists [], (e :: firstn todo (skipn (S (Z.to_nat i)) (zr_zones zi))).
        cbn. repeat split; auto.
      * destruct (in_tables e) eqn:T.
        -- rewrite C, bind_val. cbn [fst snd app].
           destruct (IH (i + 1)) as (printed & rest & H1 & H2 & H3 & H4); [lia|].
           replace (Z.to_nat (i + 1)) with (S (Z.to_nat i)) in * by lia.
           exists (e :: printed), rest. rewrite H1, H2. repeat split; auto.
        -- rewrite C, bind_stop. exists [], (e :: firstn todo (skipn (S (Z.to_nat i)) (zr_zones zi))).
           cbn. repeat split; auto.
    + rewrite C, bind_stop.
      apply nth_error_None in E. rewrite (skipn_all2 _ E). cbn.
      exists [], []. cbn. repeat split; auto.
Qed.

(** ** blkzone report *)

Lemma report_sizes n :
  1 <= n <= MAX_REPORT_LEN ->
  u32 n = n /\
  u64 (sizeof_blk_zone_report + u64 (n * sizeof_blk_zone))
  = sizeof_blk_zone_report + n * sizeof_blk_zone.
Proof.
  change MAX_REPORT_LEN with 65536.
  unfold u32, u64, sizeof_blk_zone_report, sizeof_blk_zone. intros H.
  rewrite (Z.mod_small (n * 64)) by lia.
  rewrite !Z.mod_small by lia. auto.
Qed.

Lemma blkzone_report_run sys ctl t fd c :
  init_device sys ctl O_RDONLY = (t, Val (fd, c)) ->
  (offset c >? total_sectors c) = false ->
  exists n w,
    normalised (length c) n w /\
    blkzone_report sys ctl =
    let answer := os_BLKREPORTZONE sys fd (offset c) n in
    ((t ++ w ++
      [Ev_xmalloc (sizeof_blk_zone_report + n * sizeof_blk_zone);
       Ev_report_zones fd (offset c) n]
      ++ (if fst answer =? -1 then []
          else fst (report_tail fd (verbose c) (snd answer))))%list,
     if fst answer =? -1
     then Abort (Exit_failure (BLKREPORTZONE_failed (devname c)))
     else snd (report_tail fd (verbose c) (snd answer))).
Proof.
  intros I O. unfold blkzone_report. rewrite I, bind_val. cbn [fst snd]. rewrite O.
  assert (exists n w, normalised (length c) n w /\ 1 <= n <= MAX_REPORT_LEN /\
    (let ctl0 := if length c <? 1 then set_length c 1 else c in
     if length ctl0 >? MAX_REPORT_LEN
     then let ctl1 := set_length ctl0 MAX_REPORT_LEN in
          warnx (Limiting_report (length ctl1));;; ret ctl1
     else ret ctl0) = (w, Val (set_length c n))) as (n & w & N & B & E).
  { unfold normalised. change MAX_REPORT_LEN with 65536.
    destruct (Z.ltb_spec (length c) 1) as [L|L].
    - exists 1, []. split; [left; auto|]. split; [lia|]. reflexivity.
    - destruct (Z.gtb_spec (length c) 65536) as [G|G].
      + exists 65536, [Ev_warnx (Limiting_report 65536)].
        split; [right; right; repeat split; auto; lia|]. split; [lia|]. reflexivity.
      + exists (length c), []. split; [right; left; repeat split; auto; lia|].
        split; [lia|]. destruct c; reflexivity. }
  exists n, w. split; [exact N|].
  cbv zeta in E. rewrite E. clear E.
  rewrite bind_val. cbn [fst snd length offset devname verbose set_length].
  destruct (report_sizes n B) as [-> ->].
  rewrite bind_emit. cbn [fst snd]. rewrite bind_call. cbn [fst snd].
  cbv zeta.
  destruct (fst (os_BLKREPORTZONE sys fd (offset c) n) =? -1); cbn [fst snd].
  - reflexivity.
  - unfold report_tail, report_header. cbv zeta.
    set (loop := report_loop _ _ 0).
    destruct (verbose c); rewrite ?bind_emit, ?bind_ret_l; cbn [fst snd];
      unfold printf; rewrite ?bind_emit; cbn [fst snd];
      destruct loop as [tl [u|x]]; rewrite ?bind_val, ?bind_abort; cbn [fst snd];
      rewrite ?bind_emit; cbn; rewrite ?app_nil_r; reflexivity.
Qed.

Lemma report_loop_prints zi todo i :
  0 <= i -> exists lines, fst (report_loop todo zi i) = map Ev_printf lines.
Proof.
  intros Hi. destruct (report_loop_shape zi todo i Hi) as (p & r & _ & H & _).
  eauto.
Qed.

Lemma report_tail_silent fd verb zi :
  warnings_of (fst (report_tail fd verb zi)) = [] /\
  report_requests (fst (report_tail fd verb zi)) = [] /\
  allocations (fst (report_tail fd verb zi)) = [].
Proof.
  unfold report_tail. cbv zeta. cbn [fst].
  destruct (report_loop_prints zi (Z.to_nat (zr_nr_zones zi)) 0) as [lines ->]; [lia|].
  rewrite !warnings_of_app, !report_requests_app, !allocations_app.
  destruct (prints_are_silent lines) as (-> & -> & ->).
  destruct (prints_are_silent (report_header verb zi)) as (-> & -> & ->).
  destruct (snd _); cbn; auto.
Qed.

Lemma stdout_of_report_tail fd verb zi :
  stdout_of (fst (report_tail fd verb zi)) =
  (report_header verb zi
   ++ stdout_of (fst (report_loop (Z.to_nat (zr_nr_zones zi)) zi 0)))%list.
Proof.
  unfold report_tail. cbv zeta. cbn [fst].
  rewrite !stdout_of_app, stdout_of_prints.
  destruct (snd _); cbn; now rewrite app_nil_r.
Qed.

(** Every run of report is one of three: it ends before the device is
    asked, with nothing printed or requested; or it asks the device. *)
Lemma blkzone_report_cases sys ctl :
  (exists d,
     snd (blkzone_report sys ctl) = Abort (Exit_failure d) /\
     report_requests (fst (blkzone_report sys ctl)) = [] /\
     warnings_of (fst (blkzone_report sys ctl)) = [] /\
     stdout_of (fst (blkzone_report sys ctl)) = [] /\
     allocations (fst (blkzone_report sys ctl)) = []) \/
  (exists t fd total ssz,
     init_device sys ctl O_RDONLY = (t, Val (fd, set_geometry ctl total ssz)) /\
     (offset ctl >? total) = false /\
     report_requests t = [] /\ warnings_of t = [] /\
     stdout_of t = [] /\ allocations t = []).
Proof.
  unfold blkzone_report.
  destruct (init_device_cases sys ctl O_RDONLY)
    as [t d _ _ Hr Hw Hs Ha _ | t fd total ssz _ _ Hr Hw Hs Ha].
  - left. exists d. rewrite bind_abort. cbn [fst snd]. auto.
  - destruct (offset ctl >? total) eqn:O.
    + left. eexists. rewrite bind_val. cbn [fst snd offset total_sectors set_geometry].
      rewrite O. cbn. rewrite app_nil_r. eauto.
    + right. exists t, fd, total, ssz. auto 10.
Qed.

Lemma normalised_silent len n w :
  normalised len n w ->
  stdout_of w = [] /\ report_requests w = [] /\ allocations w = [].
Proof. intros [(_ & _ & ->) | [(_ & _ & ->) | (_ & _ & ->)]]; cbn; auto. Qed.

Lemma normalised_range len n w :
  normalised len n w -> 1 <= n <= 65536.
Proof.
  unfold normalised. change MAX_REPORT_LEN with 65536.
  intros [(_ & -> & _) | [(? & -> & _) | (_ & -> & _)]]; lia.
Qed.

(** ** blkzone reset *)

Lemma blkdev_chunk_sectors_run sys dname :
  exists t zonesize,
    blkdev_chunk_sectors sys dname = (t, Val zonesize) /\
    opens t = [] /\ reset_requests t = [].
Proof.
  unfold blkdev_chunk_sectors. cbv zeta. rewrite bind_call.
  destruct (negb _); cbn [fst snd].
  - do 2 eexists. repeat split.
  - rewrite bind_call. do 2 eexists. repeat split.
Qed.

Lemma blkzone_reset_cases sys ctl : reset_cases sys ctl (blkzone_reset sys ctl).
Proof.
  unfold blkzone_reset.
  destruct (blkdev_chunk_sectors_run sys (devname ctl)) as (tz & zonesize & Hcs & _).
  rewrite Hcs, bind_val. cbn [fst snd].
  destruct (Z.eqb_spec zonesize 0) as [->|NZ].
  { cbn. rewrite app_nil_r. now constructor. }
  pose proof (init_device_cases sys ctl O_WRONLY) as C.
  remember (init_device sys ctl O_WRONLY) as r eqn:Hin. symmetry in Hin.
  destruct C as [t d _ _ _ _ _ _ V | t fd total ssz _ _ _ _ _ _].
  { rewrite bind_abort. cbn [fst snd]. eapply reset_no_device; eauto. }
  rewrite bind_val. cbn [fst snd offset total_sectors length devname verbose set_geometry].
  destruct (Z.eqb_spec (Z.land (offset ctl) (u64 (zonesize - 1))) 0) as [A|A];
    cbn [negb fst snd].
  2:{ cbn [errx stop fst snd]. rewrite app_nil_r. eapply reset_not_aligned; eauto. }
  destruct (Z.gtb_spec (offset ctl) total) as [G|G].
  { cbn [errx stop fst snd]. rewrite app_nil_r.
    eapply reset_offset_beyond; eauto. lia. }
  pose proof (reset_sent sys ctl tz zonesize t fd total ssz Hcs NZ Hin A G) as R.
  cbv zeta in R |- *. unfold reset_range in R.
  cbn [za_sector za_nr_sectors] in R |- *.
  rewrite bind_call. cbn [fst snd].
  match goal with
  | R : reset_cases _ _ ?x |- reset_cases _ _ ?y => replace y with x; [exact R|]
  end.
  destruct (_ =? -1); cbn [fst snd app]; [reflexivity|].
  destruct (verbose ctl); unfold printf; rewrite ?bind_emit, ?bind_ret_l; cbn; reflexivity.
Qed.

(** Case analysis on the run of reset on [ctl]. *)
Ltac reset_run sys ctl :=
  destruct (blkzone_reset_cases sys ctl)
    as [tz Hcs | tz zs t d' Hcs NZ' Hin V' | tz zs t fd' total' ssz' Hcs NZ' Hin A'
        | tz zs t fd' total' ssz' Hcs NZ' Hin A' G
        | tz zs t fd' total' ssz' Hcs NZ' Hin A' G za failed].

Lemma init_device_sends_nothing sys ctl mode :
  reset_requests (fst (init_device sys ctl mode)) = [] /\
  opens (fst (init_device sys ctl mode)) = [devname ctl].
Proof. destruct (init_device_cases sys ctl mode); auto. Qed.

Lemma chunk_sectors_sends_nothing sys dname :
  reset_requests (fst (blkdev_chunk_sectors sys dname)) = [] /\
  opens (fst (blkdev_chunk_sectors sys dname)) = [].
Proof.
  destruct (blkdev_chunk_sectors_run sys dname) as (t & z & -> & O & R). auto.
Qed.

(** The requests of a run of reset, case by case. *)
Lemma reset_requests_of_cases sys ctl r :
  reset_cases sys ctl r ->
  match snd r with
  | Abort (Exit_failure d) =>
      if validation_failure d then reset_requests (fst r) = [] else True
  | _ => True
  end.
Proof.
  intros [tz Hcs | tz zs t d Hcs NZ Hin V | tz zs t fd total ssz Hcs NZ Hin A
          | tz zs t fd total ssz Hcs NZ Hin A G | tz zs t fd total ssz Hcs NZ Hin A G za failed];
    cbn [fst snd validation_failure].
  - pose proof (chunk_sectors_sends_nothing sys (devname ctl)) as [R _].
    now rewrite Hcs in R.
  - now rewrite V.
  - pose proof (chunk_sectors_sends_nothing sys (devname ctl)) as [R _].
    pose proof (init_device_sends_nothing sys ctl O_WRONLY) as [R' _].
    rewrite Hcs in R. rewrite Hin in R'. cbn [fst] in *.
    now rewrite reset_requests_app, R, R'.
  - pose proof (chunk_sectors_sends_nothing sys (devname ctl)) as [R _].
    pose proof (init_device_sends_nothing sys ctl O_WRONLY) as [R' _].
    rewrite Hcs in R. rewrite Hin in R'. cbn [fst] in *.
    now rewrite reset_requests_app, R, R'.
  - destruct failed; exact I.
Qed.

Lemma reset_sent_requests sys ctl zonesize fd total ssz :
  snd (blkdev_chunk_sectors sys (devname ctl)) = Val zonesize ->
  zonesize <> 0 ->
  snd (init_device sys ctl O_WRONLY) = Val (fd, set_geometry ctl total ssz) ->
  Z.land (offset ctl) (u64 (zonesize - 1)) = 0 ->
  offset ctl <= total ->
  reset_requests (fst (blkzone_reset sys ctl))
  = [reset_range (offset ctl) (length ctl) zonesize total].
Proof.
  intros Hz NZ Hi A O.
  pose proof (chunk_sectors_sends_nothing sys (devname ctl)) as [Rz _].
  pose proof (init_device_sends_nothing sys ctl O_WRONLY) as [Ri _].
  reset_run sys ctl;
    rewrite Hcs in Hz, Rz; cbn [snd fst] in Hz, Rz; inversion Hz; subst;
    try contradiction;
    rewrite Hin in Hi, Ri; cbn [snd fst] in Hi, Ri; inversion Hi; subst;
    try contradiction; try lia.
  cbn [fst]. rewrite !reset_requests_app, Rz, Ri.
  assert (reset_requests
            (if failed then []
             else ((if verbose ctl
                    then [Ev_printf (devname ctl ++ ": successfully reset in range from "
                                     ++ fmt_u64 (offset ctl) ++ ", to "
                                     ++ fmt_u64 (za_nr_sectors za))]
                    else []) ++ [Ev_close fd])%list) = []) as ->.
  { destruct failed, (verbose ctl); reflexivity. }
  reflexivity.
Qed.

Lemma land_pow2_mask (x k : Z) :
  0 <= k < 64 -> Z.land x (u64 (2^k - 1)) = x mod 2^k.
Proof.
  intros K. unfold u64.
  assert (0 < 2^k <= 2^63).
  { split; [apply Z.pow_pos_nonneg; lia|apply Z.pow_le_mono_r; lia]. }
  rewrite Z.mod_small by lia.
  rewrite <- Z.land_ones by lia. f_equal. rewrite Z.ones_equiv. lia.
Qed.

(** ** Worked runs *)

(** reset -o 0 -l 1 on 1,000,000 sectors in zones of 65536 resets the
    sectors from 0, 65536 of them. *)
Example reset_first_zone :
  blkzone_reset disk (sample_ctl 0 1)
  = ([Ev_sysfs_init 2064; Ev_sysfs_read 2064 "queue/chunk_sectors";
      Ev_open "/dev/sdb" O_WRONLY; Ev_fstat 3; Ev_get_sectors 3;
      Ev_get_sector_size 3; Ev_reset_zones 3 0 65536; Ev_close 3],
     Val 0).
Proof. reflexivity. Qed.

(** report -o 0 -l 2 on a device with two zones prints the summary line
    and two descriptor lines. *)
Example report_two_zones :
  stdout_of (fst (blkzone_report disk (sample_ctl 0 2)))
  = [ "Zones returned: 2" ++ newline;
      "  start:         0, len  10000, wptr      0 reset:0 non-seq:0, zcond: 0(cv) [type: 1(CONVENTIONAL)]"
      ++ newline;
      "  start:     10000, len  10000, wptr     64 reset:1 non-seq:0, zcond: 2(Oi) [type: 2(SEQ_WRITE_REQUIRED)]"
      ++ newline ]
  /\ snd (blkzone_report disk (sample_ctl 0 2)) = Val 0.
Proof. vm_compute. split; reflexivity. Qed.

(** The clamp of reset in plain arithmetic: when nothing wraps and the
    requested end lies beyond the device, the count sent is the total
    less the number of zones asked for. *)
Lemma reset_clamp_plain sys ctl zonesize fd total ssz :
  snd (blkdev_chunk_sectors sys (devname ctl)) = Val zonesize ->
  snd (init_device sys ctl O_WRONLY) = Val (fd, set_geometry ctl total ssz) ->
  0 < zonesize -> 0 <= offset ctl <= total -> 0 <= length ctl <= total ->
  Z.land (offset ctl) (u64 (zonesize - 1)) = 0 ->
  offset ctl + length ctl * zonesize < 2^64 ->
  offset ctl + length ctl * zonesize > total ->
  reset_requests (fst (blkzone_reset sys ctl))
  = [mk_blk_zone_range (offset ctl) (total - length ctl)].
Proof.
  intros Hz Hi Z0 O L A W X.
  rewrite (reset_sent_requests sys ctl zonesize fd total ssz Hz) by (auto; lia).
  unfold reset_range, u64.
  assert (0 <= length ctl * zonesize) by nia.
  rewrite (Z.mod_small (length ctl * zonesize)) by lia.
  rewrite (Z.mod_small (offset ctl + _)) by lia.
  destruct (Z.gtb_spec (offset ctl + length ctl * zonesize) total); [|lia].
  now rewrite Z.mod_small by lia.
Qed.

(** Where nothing wraps, the range reset sends ends inside the device
    exactly when it was not clamped or the offset is at most the zone
    count. *)
Lemma reset_range_inside_iff off len zonesize total :
  0 <= off <= total -> 0 <= len <= total -> total < 2^64 ->
  0 < zonesize -> off + len * zonesize < 2^64 ->
  let za := reset_range off len zonesize total in
  za_sector za + za_nr_sectors za <= total
  <-> (off + len * zonesize <= total \/ off <= len).
Proof.
  intros O L T Z0 W. unfold reset_range, u64. cbn [za_sector za_nr_sectors].
  assert (0 <= len * zonesize) by nia.
  rewrite (Z.mod_small (len * zonesize)) by lia.
  rewrite (Z.mod_small (off + _)) by lia.
  rewrite (Z.mod_small (total - len)) by lia.
  destruct (Z.gtb_spec (off + len * zonesize) total); lia.
Qed.

(** At offset 655360 with six zones asked for, the count sent, 999994, is
    neither the total less the sector length nor the total less the
    offset. *)
Example reset_clamp_is_the_zone_count :
  reset_requests (fst (blkzone_reset disk (sample_ctl 655360 6)))
  = [mk_blk_zone_range 655360 (1000000 - 6)] /\
  1000000 - 6 <> 1000000 - 6 * 65536 /\
  1000000 - 6 <> 1000000 - 655360.
Proof. vm_compute. repeat split; discriminate. Qed.

(** ** Properties of the specification *)

(** C1 (fails on the code): the index of the condition-mnemonic read is
    the condition code masked with the table size, 15, so it ranges over
    0..15, while the table has the fifteen entries 0..14.  For the code 15
    (offline) the index is 15, one past the end: the read is outside the
    table, and a report of such a zone stops there after the summary
    line. *)
Theorem condition_lookup_reads_past_table :
  ARRAY_SIZE condition_str = 15 /\
  condition_index 15 = 15 /\
  load condition_str (condition_index 15) = stop Out_of_bounds /\
  stdout_of (fst (blkzone_report disk_offline (sample_ctl 0 1)))
  = ["Zones returned: 1" ++ newline] /\
  snd (blkzone_report disk_offline (sample_ctl 0 1)) = Abort Out_of_bounds.
Proof. vm_compute. repeat split. Qed.

(** C2 (fails on the code): on the device of 1,000,000 sectors with zones
    of 65536, reset at offset 655360 (aligned, inside the device) of six
    zones passes every check and sends the range (655360, 999994), whose
    end, 1655354, lies beyond the device: the clamp subtracted the zone
    count from the total. *)
Theorem reset_range_exceeds_device :
  655360 mod 65536 = 0 /\
  655360 <= 1000000 /\
  reset_requests (fst (blkzone_reset disk (sample_ctl 655360 6)))
  = [mk_blk_zone_range 655360 999994] /\
  snd (blkzone_reset disk (sample_ctl 655360 6)) = Val 0 /\
  655360 + 999994 > 1000000.
Proof. vm_compute. repeat split; discriminate. Qed.

(** C3: when reset reaches the clamp (zone size known, device open,
    offset aligned and inside the device) and offset + length * zonesize,
    in 64-bit arithmetic, exceeds the total sector count, the one range
    sent to the kernel starts at the offset and has as its count the
    total less [length], the number of zones asked for (modulo 2^64;
    exactly total - length when length is at most the total). *)
Theorem reset_clamp_subtracts_zone_count sys ctl zonesize fd total ssz :
  snd (blkdev_chunk_sectors sys (devname ctl)) = Val zonesize ->
  zonesize <> 0 ->
  snd (init_device sys ctl O_WRONLY) = Val (fd, set_geometry ctl total ssz) ->
  Z.land (offset ctl) (u64 (zonesize - 1)) = 0 ->
  offset ctl <= total ->
  u64 (offset ctl + u64 (length ctl * zonesize)) > total ->
  reset_requests (fst (blkzone_reset sys ctl))
  = [mk_blk_zone_range (offset ctl) (u64 (total - length ctl))] /\
  (0 <= length ctl <= total -> total < 2^64 ->
   reset_requests (fst (blkzone_reset sys ctl))
   = [mk_blk_zone_range (offset ctl) (total - length ctl)]).
Proof.
  intros Hz NZ Hi A O X.
  rewrite (reset_sent_requests sys ctl zonesize fd total ssz Hz NZ Hi A O).
  unfold reset_range.
  destruct (Z.gtb_spec (u64 (offset ctl + u64 (length ctl * zonesize))) total); [|lia].
  split; [reflexivity|].
  intros L T. unfold u64. now rewrite Z.mod_small by lia.
Qed.

Lemma reset_clamp_subtracts_zone_count_witness :
  reset_requests (fst (blkzone_reset disk (sample_ctl 655360 6)))
  = [mk_blk_zone_range 655360 (u64 (1000000 - 6))] /\
  (0 <= 6 <= 1000000 -> 1000000 < 2^64 ->
   reset_requests (fst (blkzone_reset disk (sample_ctl 655360 6)))
   = [mk_blk_zone_range 655360 (1000000 - 6)]).
Proof.
  apply (reset_clamp_subtracts_zone_count disk (sample_ctl 655360 6) 65536 3 1000000 512).
  - reflexivity.
  - discriminate.
  - reflexivity.
  - reflexivity.
  - discriminate.
  - reflexivity.
Defined.

(** C4 (as the code has it): for every device and every offset, report
    with length 0 is the same run, event for event, as report with
    length 1: the length is raised to 1, not to DEF_REPORT_LEN. *)
Theorem report_length_zero_is_one sys ctl :
  blkzone_report sys (set_length ctl 0) = blkzone_report sys (set_length ctl 1).
Proof.
  unfold blkzone_report. rewrite !init_device_set_length.
  destruct (init_device sys ctl O_RDONLY) as [t [[fd c]|x]]; reflexivity.
Qed.

(** C4 as stated fails: on the sample disk, length 0 asks the device for
    one descriptor and prints one descriptor line, length 4096 asks for
    4096 and prints two. *)
Lemma report_length_zero_is_not_default :
  report_requests (fst (blkzone_report disk (sample_ctl 0 0))) = [(3, 0, 1)] /\
  report_requests (fst (blkzone_report disk (sample_ctl 0 DEF_REPORT_LEN)))
  = [(3, 0, 4096)] /\
  List.length (stdout_of (fst (blkzone_report disk (sample_ctl 0 0)))) = 2%nat /\
  List.length (stdout_of (fst (blkzone_report disk (sample_ctl 0 DEF_REPORT_LEN))))
  = 3%nat.
Proof. vm_compute. repeat split. Qed.

(** C5 (as the code has it): for a zone size that is a power of two, 2^k
    with k < 64, and a device that opens, reset ends with the
    misaligned-offset error exactly when offset mod zonesize is not 0,
    and then it sends no reset request. *)
Theorem reset_alignment_power_of_two sys ctl k fd total ssz :
  0 <= k < 64 ->
  snd (blkdev_chunk_sectors sys (devname ctl)) = Val (2^k) ->
  snd (init_device sys ctl O_WRONLY) = Val (fd, set_geometry ctl total ssz) ->
  (snd (blkzone_reset sys ctl)
   = Abort (Exit_failure (Not_aligned (devname ctl) (offset ctl) (2^k)))
   <-> offset ctl mod 2^k <> 0) /\
  (offset ctl mod 2^k <> 0 -> reset_requests (fst (blkzone_reset sys ctl)) = []).
Proof.
  intros K Hz Hi.
  pose proof (reset_requests_of_cases sys ctl _ (blkzone_reset_cases sys ctl)) as Q.
  revert Q.
  reset_run sys ctl;
    rewrite Hcs in Hz; cbn [snd fst] in Hz; inversion Hz; subst;
    try (exfalso; assert (0 < 2^k) by (apply Z.pow_pos_nonneg; lia); lia);
    rewrite Hin in Hi; cbn [snd fst] in Hi; inversion Hi; subst;
    rewrite land_pow2_mask in * by exact K; cbn [fst snd validation_failure]; intros Q.
  - split; [split; auto|auto].
  - split; [split; [discriminate|contradiction]|contradiction].
  - split; [split; [|contradiction]|contradiction].
    destruct failed; discriminate.
Qed.

Lemma reset_alignment_power_of_two_witness :
  (snd (blkzone_reset disk (sample_ctl 1000 1))
   = Abort (Exit_failure (Not_aligned "/dev/sdb" 1000 (2^16)))
   <-> 1000 mod 2^16 <> 0) /\
  (1000 mod 2^16 <> 0 ->
   reset_requests (fst (blkzone_reset disk (sample_ctl 1000 1))) = []).
Proof.
  apply (reset_alignment_power_of_two disk (sample_ctl 1000 1) 16 3 1000000 512).
  - lia.
  - reflexivity.
  - reflexivity.
Defined.

(** C5 as stated fails for a zone size that is not a power of two: with
    zones of 196608 sectors the offset 196608, a multiple, is refused as
    misaligned, and the offset 65536, not a multiple, is accepted and
    reset. *)
Lemma reset_alignment_is_a_mask_test :
  196608 mod 196608 = 0 /\
  snd (blkzone_reset disk_96M (sample_ctl 196608 1))
  = Abort (Exit_failure (Not_aligned "/dev/sdb" 196608 196608)) /\
  65536 mod 196608 <> 0 /\
  reset_requests (fst (blkzone_reset disk_96M (sample_ctl 65536 1)))
  = [mk_blk_zone_range 65536 196608] /\
  snd (blkzone_reset disk_96M (sample_ctl 65536 1)) = Val 0.
Proof. vm_compute. repeat split; discriminate. Qed.

(** C6: when report has asked the device and the ioctl succeeded, the
    descriptor lines printed after the header are the lines, in device
    order, of a prefix [printed] of the first nr_zones descriptors
    returned; no printed descriptor has length zero; there are at most
    nr_zones of them (so at most the requested count when the device
    returned no more than asked); and the prefix ends either at the end
    of the descriptors, or before a descriptor of length zero, in which
    case report returns 0, or before a descriptor whose table read is out
    of range. *)
Theorem report_stops_at_zero_length sys ctl fd sector nr :
  report_requests (fst (blkzone_report sys ctl)) = [(fd, sector, nr)] ->
  fst (os_BLKREPORTZONE sys fd sector nr) <> -1 ->
  let zi := snd (os_BLKREPORTZONE sys fd sector nr) in
  exists printed rest,
    firstn (Z.to_nat (zr_nr_zones zi)) (zr_zones zi) = (printed ++ rest)%list /\
    stdout_of (fst (blkzone_report sys ctl))
    = (report_header (verbose ctl) zi ++ map entry_text printed)%list /\
    Forall (fun e => bz_len e <> 0) printed /\
    (List.length printed <= Z.to_nat (zr_nr_zones zi))%nat /\
    (zr_nr_zones zi <= nr -> Z.of_nat (List.length printed) <= nr) /\
    match rest with
    | [] =>
        (Z.to_nat (zr_nr_zones zi) <= List.length (zr_zones zi))%nat ->
        snd (blkzone_report sys ctl) = Val 0
    | z :: _ =>
        (bz_len z = 0 /\ snd (blkzone_report sys ctl) = Val 0) \/
        (bz_len z <> 0 /\ in_tables z = false /\
         snd (blkzone_report sys ctl) = Abort Out_of_bounds)
    end.
Proof.
  intros Hreq Hrc zi.
  destruct (blkzone_report_cases sys ctl)
    as [(d & _ & Hr & _) | (t & fd' & total & ssz & I & O & Hr & _ & Hs & _)].
  { rewrite Hr in Hreq. discriminate. }
  destruct (blkzone_report_run sys ctl _ _ _ I O) as (n & w & N & E).
  cbv zeta in E. cbn [offset verbose devname set_geometry] in E.
  destruct (normalised_silent _ _ _ N) as (Ws & Wr & _).
  assert ((fd', offset ctl, n) = (fd, sector, nr)) as Q.
  { rewrite E in Hreq. cbn [fst] in Hreq.
    rewrite !report_requests_app, Hr, Wr in Hreq. cbn in Hreq. now inversion Hreq. }
  pose proof (normalised_range _ _ _ N) as N1.
  inversion Q; subst fd' sector n. clear Q.
  destruct (Z.eqb_spec (fst (os_BLKREPORTZONE sys fd (offset ctl) nr)) (-1)) as [|_];
    [contradiction|].
  fold zi in E. rewrite E. cbn [fst snd].
  rewrite !stdout_of_app, Hs, Ws, stdout_of_report_tail. cbn [stdout_of flat_map app].
  unfold report_tail. cbv zeta. cbn [snd].
  destruct (report_loop_shape zi (Z.to_nat (zr_nr_zones zi)) 0)
    as (printed & rest & F & T & P & S); [lia|].
  cbn [Z.to_nat skipn] in F, S.
  exists printed, rest. rewrite T, stdout_of_prints.
  assert (List.length printed <= Z.to_nat (zr_nr_zones zi))%nat as B.
  { apply (f_equal (@List.length _)) in F.
    rewrite length_app, length_firstn in F. lia. }
  repeat split; auto.
  - eapply Forall_impl; [|exact P]. cbn. tauto.
  - lia.
  - destruct rest as [|z rest'].
    + intros L. rewrite S. apply Nat.leb_le in L. now rewrite L.
    + destruct S as [(Z0 & ->) | (Z0 & T0 & ->)]; auto.
Qed.

Lemma report_stops_at_zero_length_witness :
  let zi := snd (os_BLKREPORTZONE disk_with_end 3 0 4) in
  exists printed rest,
    firstn (Z.to_nat (zr_nr_zones zi)) (zr_zones zi) = (printed ++ rest)%list /\
    stdout_of (fst (blkzone_report disk_with_end (sample_ctl 0 4)))
    = (report_header false zi ++ map entry_text printed)%list /\
    Forall (fun e => bz_len e <> 0) printed /\
    (List.length printed <= Z.to_nat (zr_nr_zones zi))%nat /\
    (zr_nr_zones zi <= 4 -> Z.of_nat (List.length printed) <= 4) /\
    match rest with
    | [] =>
        (Z.to_nat (zr_nr_zones zi) <= List.length (zr_zones zi))%nat ->
        snd (blkzone_report disk_with_end (sample_ctl 0 4)) = Val 0
    | z :: _ =>
        (bz_len z = 0 /\ snd (blkzone_report disk_with_end (sample_ctl 0 4)) = Val 0) \/
        (bz_len z <> 0 /\ in_tables z = false /\
         snd (blkzone_report disk_with_end (sample_ctl 0 4)) = Abort Out_of_bounds)
    end.
Proof.
  apply (report_stops_at_zero_length disk_with_end (sample_ctl 0 4) 3 0 4).
  - reflexivity.
  - discriminate.
Defined.




(** C8: the type-name read uses the type code itself as the index into
    the table of four names.  For a descriptor that gets as far as the
    read (length not zero, condition read inside its table), the entry
    ends the run out of bounds exactly when the type code is above 3, and
    prints its line when the code is at most 3. *)
Theorem type_lookup_unchecked zi i e :
  0 <= i ->
  nth_error (zr_zones zi) (Z.to_nat i) = Some e ->
  bz_len e <> 0 ->
  0 <= bz_type e ->
  0 <= condition_index (bz_cond e) < ARRAY_SIZE condition_str ->
  ARRAY_SIZE type_text = 4 /\
  type_index (bz_type e) = bz_type e /\
  (snd (report_entry zi i) = Abort Out_of_bounds <-> 3 < bz_type e) /\
  (bz_type e <= 3 -> report_entry zi i = ([Ev_printf (entry_text e)], Val true)).
Proof.
  intros Hi E L T C.
  pose proof (report_entry_cases zi i Hi) as R. rewrite E in R.
  destruct (Z.eqb_spec (bz_len e) 0) as [|_]; [contradiction|].
  split; [reflexivity|]. split; [reflexivity|].
  destruct (in_tables e) eqn:B.
  - apply in_tables_true in B as [_ B]. change (ARRAY_SIZE type_text) with 4 in B.
    unfold type_index in B. rewrite R. cbn [snd]. split; [|reflexivity].
    split; [discriminate|lia].
  - apply in_tables_false in B as [B|B]; [contradiction|].
    change (ARRAY_SIZE type_text) with 4 in B. unfold type_index in B.
    rewrite R. cbn [snd stop]. split; [|lia]. split; [lia|reflexivity].
Qed.

Lemma type_lookup_unchecked_witness :
  ARRAY_SIZE type_text = 4 /\
  type_index 1 = 1 /\
  (snd (report_entry (mk_blk_zone_report 0 2 two_zones) 0) = Abort Out_of_bounds
   <-> 3 < 1) /\
  (1 <= 3 ->
   report_entry (mk_blk_zone_report 0 2 two_zones) 0
   = ([Ev_printf (entry_text (mk_blk_zone 0 65536 0 1 0 0 0))], Val true)).
Proof.
  apply (type_lookup_unchecked (mk_blk_zone_report 0 2 two_zones) 0
           (mk_blk_zone 0 65536 0 1 0 0 0)).
  - lia.
  - reflexivity.
  - discriminate.
  - discriminate.
  - split; [discriminate|reflexivity].
Defined.

(** C9: when reset ends with one of its three validation errors, no reset
    request was sent.  The zone size is read first, by a query that opens
    nothing; when it cannot be determined the run is that query alone,
    and the device is never opened. *)
Theorem reset_validation_failure_sends_nothing sys ctl d :
  snd (blkzone_reset sys ctl) = Abort (Exit_failure d) ->
  validation_failure d = true ->
  reset_requests (fst (blkzone_reset sys ctl)) = [] /\
  (exists t, fst (blkzone_reset sys ctl)
             = (fst (blkdev_chunk_sectors sys (devname ctl)) ++ t)%list /\
             opens (fst (blkdev_chunk_sectors sys (devname ctl))) = [] /\
             (d = Unable_to_determine_zone_size (devname ctl) -> t = [])) /\
  (d = Unable_to_determine_zone_size (devname ctl) ->
   opens (fst (blkzone_reset sys ctl)) = []).
Proof.
  intros S V.
  pose proof (reset_requests_of_cases sys ctl _ (blkzone_reset_cases sys ctl)) as Q.
  rewrite S, V in Q. split; [exact Q|].
  pose proof (chunk_sectors_sends_nothing sys (devname ctl)) as [_ Oz].
  revert S Oz. 
  reset_run sys ctl;
    rewrite Hcs; cbn [fst snd]; intros S Oz; inversion S; subst.
  - split; [exists []; rewrite app_nil_r; auto|auto].
  - congruence.
  - split; [exists t; repeat split; auto; discriminate|discriminate].
  - split; [exists t; repeat split; auto; discriminate|discriminate].
  - destruct failed; [|discriminate]. inversion S. subst. discriminate.
Qed.

Lemma reset_validation_failure_sends_nothing_witness :
  reset_requests (fst (blkzone_reset disk_no_chunk (sample_ctl 0 1))) = [] /\
  (exists t, fst (blkzone_reset disk_no_chunk (sample_ctl 0 1))
             = (fst (blkdev_chunk_sectors disk_no_chunk "/dev/sdb") ++ t)%list /\
             opens (fst (blkdev_chunk_sectors disk_no_chunk "/dev/sdb")) = [] /\
             (Unable_to_determine_zone_size "/dev/sdb"
              = Unable_to_determine_zone_size "/dev/sdb" -> t = [])) /\
  (Unable_to_determine_zone_size "/dev/sdb" = Unable_to_determine_zone_size "/dev/sdb" ->
   opens (fst (blkzone_reset disk_no_chunk (sample_ctl 0 1))) = []).
Proof.
  apply (reset_validation_failure_sends_nothing disk_no_chunk (sample_ctl 0 1)
           (Unable_to_determine_zone_size "/dev/sdb")).
  - reflexivity.
  - reflexivity.
Defined.

(** C10: a request that report sends to the device asks for between 1 and
    65536 zones; it is the only request of the run, and the one
    allocation of the run is the report header plus that many
    descriptors. *)
Theorem report_request_bounds sys ctl fd sector nr :
  In (fd, sector, nr) (report_requests (fst (blkzone_report sys ctl))) ->
  1 <= nr <= MAX_REPORT_LEN /\
  report_requests (fst (blkzone_report sys ctl)) = [(fd, sector, nr)] /\
  allocations (fst (blkzone_report sys ctl))
  = [sizeof_blk_zone_report + nr * sizeof_blk_zone].
Proof.
  intros H.
  destruct (blkzone_report_cases sys ctl)
    as [(d & _ & Hr & _) | (t & fd' & total & ssz & I & O & Hr & _ & _ & Ha)].
  - rewrite Hr in H. destruct H.
  - destruct (blkzone_report_run sys ctl _ _ _ I O) as (n & w & N & E).
    cbv zeta in E. rewrite E in *. cbn [fst] in *.
    set (tail := if _ =? -1 then [] else _) in *.
    assert (report_requests tail = [] /\ allocations tail = []) as [Tr Ta].
    { subst tail. destruct (_ =? -1); [now auto|].
      destruct (report_tail_silent fd' (verbose (set_geometry ctl total ssz))
                  (snd (os_BLKREPORTZONE sys fd' (offset (set_geometry ctl total ssz)) n)))
        as (_ & ? & ?). auto. }
    assert (report_requests w = [] /\ allocations w = []) as [Wr Wa].
    { destruct N as [(_ & _ & ->) | [(_ & _ & ->) | (_ & _ & ->)]]; auto. }
    rewrite !report_requests_app, !allocations_app, Hr, Ha, Wr, Wa, Tr, Ta in *.
    cbn in H |- *.
    destruct H as [H|[]]. inversion H; subst.
    repeat split; try reflexivity.
    all: destruct N as [(? & -> & _) | [(? & -> & _) | (? & -> & _)]];
      change MAX_REPORT_LEN with 65536 in *; lia.
Qed.

Lemma report_request_bounds_witness :
  1 <= 65536 <= MAX_REPORT_LEN /\
  report_requests (fst (blkzone_report disk (sample_ctl 0 70000))) = [(3, 0, 65536)] /\
  allocations (fst (blkzone_report disk (sample_ctl 0 70000)))
  = [sizeof_blk_zone_report + 65536 * sizeof_blk_zone].
Proof.
  apply (report_request_bounds disk (sample_ctl 0 70000) 3 0 65536).
  left. reflexivity.
Defined.

(** * Further properties of the code *)

(** ** The command table *)

Lemma name_to_command_lookup sys name c :
  name_to_command sys name = Some c <-> In c (commands sys) /\ cmd_name c = name.
Proof.
  unfold name_to_command, commands. cbn [name_to_command_from cmd_name In].
  split.
  - destruct (String.eqb_spec "report" name) as [E|_].
    + intros Q. inversion Q. subst c. cbn. auto.
    + destruct (String.eqb_spec "reset" name) as [E|_]; [|discriminate].
      intros Q. inversion Q. subst c. cbn. auto.
  - intros [[<- | [<- | []]] <-]; cbn [cmd_name].
    + now rewrite String.eqb_refl.
    + reflexivity.
Qed.

Lemma name_to_command_none sys name :
  name_to_command sys name = None <-> name <> "report" /\ name <> "reset".
Proof.
  unfold name_to_command, commands. cbn [name_to_command_from cmd_name].
  destruct (String.eqb_spec "report" name) as [E|N].
  - split; [discriminate|]. intros [H _]. congruence.
  - destruct (String.eqb_spec "reset" name) as [E|N'].
    + split; [discriminate|]. intros [_ H]. congruence.
    + split; auto.
Qed.

Lemma open_calls_app t1 t2 :
  open_calls (t1 ++ t2) = (open_calls t1 ++ open_calls t2)%list.
Proof. apply flat_map_app. Qed.

Lemma closes_app t1 t2 : closes (t1 ++ t2) = (closes t1 ++ closes t2)%list.
Proof. apply flat_map_app. Qed.

Lemma prints_touch_nothing lines :
  open_calls (map Ev_printf lines) = [] /\
  closes (map Ev_printf lines) = [] /\
  reset_requests (map Ev_printf lines) = [] /\
  Forall (fun e => device_event e = false) (map Ev_printf lines).
Proof.
  induction lines as [|l lines (O & C & R & F)]; cbn; auto.
Qed.

(** *** init_device, step by step *)

(** The run of init_device in full: the answers asked for, in order, and
    the first check that fails. *)
Lemma init_device_run sys ctl mode :
  let dev := devname ctl in
  let fd := os_open sys dev mode in
  let sb := os_fstat sys fd in
  let secs := os_blkdev_get_sectors sys fd in
  let ssz := os_blkdev_get_sector_size sys fd in
  init_device sys ctl mode =
  if fd <? 0 then ([Ev_open dev mode], Abort (Exit_failure (Cannot_open dev)))
  else if fst sb =? -1
  then ([Ev_open dev mode; Ev_fstat fd], Abort (Exit_failure (Stat_failed dev)))
  else if negb (S_ISBLK (snd sb))
  then ([Ev_open dev mode; Ev_fstat fd],
        Abort (Exit_failure (Not_a_block_device dev)))
  else if negb (fst secs =? 0)
  then ([Ev_open dev mode; Ev_fstat fd; Ev_get_sectors fd],
        Abort (Exit_failure (Get_sectors_failed dev)))
  else if negb (fst ssz =? 0)
  then ([Ev_open dev mode; Ev_fstat fd; Ev_get_sectors fd; Ev_get_sector_size fd],
        Abort (Exit_failure (BLKSSZGET_failed dev)))
  else ([Ev_open dev mode; Ev_fstat fd; Ev_get_sectors fd; Ev_get_sector_size fd],
        Val (fd, set_geometry ctl (snd secs) (snd ssz))).
Proof.
  cbv zeta. unfold init_device. rewrite bind_call.
  destruct (_ <? 0); cbn [fst snd]; [reflexivity|].
  rewrite bind_call. destruct (_ =? -1); cbn [fst snd]; [reflexivity|].
  destruct (negb (S_ISBLK _)); cbn [fst snd]; [reflexivity|].
  rewrite bind_call. destruct (negb _); cbn [fst snd]; [reflexivity|].
  rewrite bind_call. destruct (negb _); cbn [fst snd]; reflexivity.
Qed.

Lemma init_device_opens_once sys ctl mode :
  open_calls (fst (init_device sys ctl mode)) = [(devname ctl, mode)] /\
  closes (fst (init_device sys ctl mode)) = [].
Proof.
  rewrite init_device_run. cbv zeta.
  repeat match goal with |- context [if ?b then _ else _] => destruct b end;
    cbn; auto.
Qed.

(** What holds when init_device returns. *)
Lemma init_device_returns sys ctl mode fd ctl' :
  snd (init_device sys ctl mode) = Val (fd, ctl') ->
  fd = os_open sys (devname ctl) mode /\ 0 <= fd /\
  fst (os_fstat sys fd) <> -1 /\
  S_ISBLK (snd (os_fstat sys fd)) = true /\
  fst (os_blkdev_get_sectors sys fd) = 0 /\
  fst (os_blkdev_get_sector_size sys fd) = 0 /\
  ctl' = set_geometry ctl (snd (os_blkdev_get_sectors sys fd))
                          (snd (os_blkdev_get_sector_size sys fd)) /\
  fst (init_device sys ctl mode)
  = [Ev_open (devname ctl) mode; Ev_fstat fd; Ev_get_sectors fd;
     Ev_get_sector_size fd].
Proof.
  rewrite init_device_run. cbv zeta.
  destruct (Z.ltb_spec (os_open sys (devname ctl) mode) 0); [discriminate|].
  destruct (Z.eqb_spec (fst (os_fstat sys (os_open sys (devname ctl) mode))) (-1));
    [discriminate|].
  destruct (S_ISBLK _) eqn:B; cbn [negb]; [|discriminate].
  destruct (Z.eqb_spec (fst (os_blkdev_get_sectors sys (os_open sys (devname ctl) mode))) 0);
    cbn [negb]; [|discriminate].
  destruct (Z.eqb_spec (fst (os_blkdev_get_sector_size sys (os_open sys (devname ctl) mode))) 0);
    cbn [negb]; [|discriminate].
  cbn [fst snd]. intros Q. inversion Q. subst. rewrite B. repeat split; auto.
Qed.

(** X8: when init_device returns, the descriptor is the one open
    returned and it is not negative, fstat succeeded and found a block
    device, both geometry calls returned 0, the control block is the given
    one with the two values they filled in, and the calls were made in the
    order open, fstat, sectors, sector size. *)
Theorem init_device_success sys ctl mode fd ctl' :
  snd (init_device sys ctl mode) = Val (fd, ctl') ->
  fd = os_open sys (devname ctl) mode /\ 0 <= fd /\
  fst (os_fstat sys fd) <> -1 /\
  S_ISBLK (snd (os_fstat sys fd)) = true /\
  fst (os_blkdev_get_sectors sys fd) = 0 /\
  fst (os_blkdev_get_sector_size sys fd) = 0 /\
  ctl' = set_geometry ctl (snd (os_blkdev_get_sectors sys fd))
                          (snd (os_blkdev_get_sector_size sys fd)) /\
  fst (init_device sys ctl mode)
  = [Ev_open (devname ctl) mode; Ev_fstat fd; Ev_get_sectors fd;
     Ev_get_sector_size fd].
Proof. apply init_device_returns. Qed.

(** X9: init_device asks for the sector count or the sector size only
    of the descriptor it opened, and only after fstat has shown a block
    device. *)
Theorem init_device_asks_block_devices_only sys ctl mode fd :
  In (Ev_get_sectors fd) (fst (init_device sys ctl mode)) \/
  In (Ev_get_sector_size fd) (fst (init_device sys ctl mode)) ->
  fd = os_open sys (devname ctl) mode /\ 0 <= fd /\
  fst (os_fstat sys fd) <> -1 /\
  S_ISBLK (snd (os_fstat sys fd)) = true.
Proof.
  rewrite init_device_run. cbv zeta.
  destruct (Z.ltb_spec (os_open sys (devname ctl) mode) 0).
  { cbn. intros [[Q|[]]|[Q|[]]]; discriminate. }
  destruct (Z.eqb_spec (fst (os_fstat sys (os_open sys (devname ctl) mode))) (-1)).
  { cbn. intros [[Q|[Q|[]]]|[Q|[Q|[]]]]; discriminate. }
  destruct (S_ISBLK _) eqn:B; cbn [negb].
  2:{ cbn. intros [[Q|[Q|[]]]|[Q|[Q|[]]]]; discriminate. }
  intros H0.
  assert (fd = os_open sys (devname ctl) mode) as ->.
  { repeat match type of H0 with context [if ?b then _ else _] => destruct b end;
      cbn in H0; intuition congruence. }
  rewrite B. auto.
Qed.

(** *** The whole trace of report *)

Lemma report_tail_touches_nothing fd verb zi :
  open_calls (fst (report_tail fd verb zi)) = [] /\
  reset_requests (fst (report_tail fd verb zi)) = [] /\
  closes (fst (report_tail fd verb zi))
  = match snd (report_tail fd verb zi) with Val _ => [fd] | Abort _ => [] end /\
  (forall r, snd (report_tail fd verb zi) = Val r -> r = 0).
Proof.
  unfold report_tail. cbv zeta. cbn [fst snd].
  destruct (report_loop_prints zi (Z.to_nat (zr_nr_zones zi)) 0) as [lines ->]; [lia|].
  rewrite !open_calls_app, !reset_requests_app, !closes_app.
  destruct (prints_touch_nothing lines) as (-> & -> & -> & _).
  destruct (prints_touch_nothing (report_header verb zi)) as (-> & -> & -> & _).
  destruct (snd _); cbn; repeat split; auto; congruence.
Qed.

Lemma blkzone_report_trace sys ctl :
  exists rest,
    fst (blkzone_report sys ctl)
    = (fst (init_device sys ctl O_RDONLY) ++ rest)%list /\
    open_calls rest = [] /\
    reset_requests rest = [] /\
    closes rest = match snd (blkzone_report sys ctl) with
                  | Val _ => [os_open sys (devname ctl) O_RDONLY]
                  | Abort _ => []
                  end /\
    (forall r, snd (blkzone_report sys ctl) = Val r -> r = 0).
Proof.
  destruct (init_device sys ctl O_RDONLY) as [t [[fd c]|x]] eqn:I.
  2:{ exists []. unfold blkzone_report. rewrite I, bind_abort. cbn [fst snd].
      rewrite app_nil_r. repeat split; auto. discriminate. }
  pose proof (init_device_returns sys ctl O_RDONLY fd c) as S.
  rewrite I in S. destruct (S eq_refl) as (Hfd & _). clear S.
  destruct (offset c >? total_sectors c) eqn:O.
  { exists []. unfold blkzone_report. rewrite I, bind_val. cbn [fst snd].
    rewrite O. cbn [errx stop fst snd]. repeat split; auto. discriminate. }
  destruct (blkzone_report_run sys ctl t fd c I O) as (n & w & N & E).
  cbv zeta in E. rewrite E. cbn [fst snd].
  eexists. split; [reflexivity|].
  assert (open_calls w = [] /\ reset_requests w = [] /\ closes w = []) as (W1 & W2 & W3).
  { destruct N as [(_ & _ & ->) | [(_ & _ & ->) | (_ & _ & ->)]]; cbn; auto. }
  rewrite !open_calls_app, !reset_requests_app, !closes_app, W1, W2, W3.
  destruct (fst (os_BLKREPORTZONE sys fd (offset c) n) =? -1).
  { cbn. repeat split; auto. discriminate. }
  destruct (report_tail_touches_nothing fd (verbose c)
              (snd (os_BLKREPORTZONE sys fd (offset c) n))) as (-> & -> & -> & R).
  subst fd. cbn. repeat split; auto.
Qed.

(** *** The whole trace of reset *)

Lemma chunk_sectors_touches_sysfs_only sys dname :
  open_calls (fst (blkdev_chunk_sectors sys dname)) = [] /\
  closes (fst (blkdev_chunk_sectors sys dname)) = [] /\
  report_requests (fst (blkdev_chunk_sectors sys dname)) = [] /\
  stdout_of (fst (blkdev_chunk_sectors sys dname)) = [].
Proof.
  unfold blkdev_chunk_sectors. cbv zeta. rewrite bind_call.
  destruct (negb _); cbn [fst snd]; [cbn; auto|].
  rewrite bind_call. cbn. auto.
Qed.

Lemma init_device_is_quiet sys ctl mode :
  report_requests (fst (init_device sys ctl mode)) = [] /\
  stdout_of (fst (init_device sys ctl mode)) = [].
Proof. destruct (init_device_cases sys ctl mode); auto. Qed.

Lemma blkzone_reset_trace sys ctl :
  report_requests (fst (blkzone_reset sys ctl)) = [] /\
  open_calls (fst (blkzone_reset sys ctl))
  = match snd (blkdev_chunk_sectors sys (devname ctl)) with
    | Val 0 => []
    | _ => [(devname ctl, O_WRONLY)]
    end /\
  closes (fst (blkzone_reset sys ctl))
  = match snd (blkzone_reset sys ctl) with
    | Val _ => [os_open sys (devname ctl) O_WRONLY]
    | Abort _ => []
    end /\
  (forall r, snd (blkzone_reset sys ctl) = Val r -> r = 0) /\
  (List.length (stdout_of (fst (blkzone_reset sys ctl))) <= 1)%nat /\
  (stdout_of (fst (blkzone_reset sys ctl)) <> [] <->
   verbose ctl = true /\ snd (blkzone_reset sys ctl) = Val 0).
Proof.
  pose proof (chunk_sectors_touches_sysfs_only sys (devname ctl)) as (Zo & Zc & Zr & Zs).
  pose proof (init_device_opens_once sys ctl O_WRONLY) as (Io & Ic).
  pose proof (init_device_is_quiet sys ctl O_WRONLY) as (Ir & Is).
  pose proof (init_device_returns sys ctl O_WRONLY) as S.
  reset_run sys ctl; rewrite Hcs in *; cbn [fst snd] in *;
    try (rewrite Hin in *; cbn [fst snd] in * );
    rewrite ?report_requests_app, ?open_calls_app, ?closes_app, ?stdout_of_app;
    rewrite ?Zo, ?Zc, ?Zr, ?Zs, ?Io, ?Ic, ?Ir, ?Is; cbn [app List.length].
  - repeat split; auto; try discriminate; try tauto. intros [_ Q]; discriminate.
  - destruct zs as [|p|p]; [contradiction| |];
      (repeat split; auto; try discriminate; try tauto; intros [_ Q]; discriminate).
  - destruct zs as [|p|p]; [contradiction| |];
      (repeat split; auto; try discriminate; try tauto; intros [_ Q]; discriminate).
  - destruct zs as [|p|p]; [contradiction| |];
      (repeat split; auto; try discriminate; try tauto; intros [_ Q]; discriminate).
  - destruct (S fd' _ eq_refl) as (-> & _).
    assert (forall b, match zs with 0 => b | _ => [(devname ctl, O_WRONLY)] end
                      = [(devname ctl, O_WRONLY)] \/ zs = 0) as Z0
      by (intros b; destruct zs; auto).
    destruct failed, (verbose ctl); cbn;
      (repeat split; auto; try discriminate; try tauto; try lia;
       try (destruct zs; [contradiction|reflexivity|reflexivity]);
       try (intros [Q Q']; discriminate);
       try (intros r Q; inversion Q; reflexivity)).
Qed.

(** *** main *)

Lemma option_case_ends sys lc txt ctl c optarg :
  (exists lines, fst (option_case sys lc txt ctl c optarg) = map Ev_printf lines) /\
  match snd (option_case sys lc txt ctl c optarg) with
  | inl _ => fst (option_case sys lc txt ctl c optarg) = []
  | inr (Status s) => s = EXIT_SUCCESS
  | inr (Usage_error _) => True
  | inr (Stopped _) => False
  end.
Proof.
  unfold option_case.
  repeat match goal with
         | |- context [if ?b then _ else _] => destruct b
         | |- context [match lc_strtosize ?l ?a with _ => _ end] =>
             destruct (lc_strtosize l a)
         end; cbn [fst snd]; split; auto; try (exists []; reflexivity); eauto.
  exists [UTIL_LINUX_VERSION txt]. reflexivity.
Qed.

Lemma option_loop_ends sys lc txt opts : forall ctl,
  (exists lines, fst (option_loop sys lc txt opts ctl) = map Ev_printf lines) /\
  match snd (option_loop sys lc txt opts ctl) with
  | inl _ => fst (option_loop sys lc txt opts ctl) = []
  | inr (Status s) => s = EXIT_SUCCESS
  | inr (Usage_error _) => True
  | inr (Stopped _) => False
  end.
Proof.
  induction opts as [|[c optarg] opts IH]; intros ctl; cbn [option_loop].
  - cbn. split; auto. exists []. reflexivity.
  - pose proof (option_case_ends sys lc txt ctl c optarg) as [[l1 P] E].
    destruct (option_case sys lc txt ctl c optarg) as [t [ctl'|e]]; cbn [fst snd] in *.
    + rewrite E. destruct (IH ctl') as [[l2 P2] E2]. cbv zeta. cbn [fst snd app].
      split; [eauto|exact E2].
    + split; [eauto|exact E].
Qed.

(** Every run of main either calls the handler of the command named by
    argv[1], or ends before with nothing but printed text. *)
Lemma main_cases sys lc txt argv :
  (exists cmd ctl, handler_run sys lc txt argv cmd ctl) \/
  ((exists lines, fst (main sys lc txt argv) = map Ev_printf lines) /\
   (snd (main sys lc txt argv) = Status EXIT_SUCCESS \/
    snd (main sys lc txt argv) = Stopped Out_of_bounds \/
    exists d, snd (main sys lc txt argv) = Usage_error d)).
Proof.
  unfold main. cbv zeta.
  destruct ((2 <=? Z.of_nat (List.length argv)) && not_an_option (nth 1 argv "")) eqn:N.
  - destruct (name_to_command sys (nth 1 argv "")) as [cmd|] eqn:C.
    2:{ right. cbn. split; [exists []; reflexivity|eauto]. }
    apply andb_true_iff in N as [N1 N2]. apply Z.leb_le in N1.
    unfold main_options. cbv zeta.
    pose proof (option_loop_ends sys lc txt
                  (go_options (lc_getopt_long lc (tl argv)))
                  (mk_ctl "" 0 0 0 0 false)) as [[l P] E].
    destruct (option_loop _ _ _ _ _) as [t [ctl0|e]] eqn:L; cbn [fst snd] in *.
    2:{ right. split; [eauto|]. destruct e as [s|d|x]; [subst; auto|eauto|contradiction]. }
    rewrite E in *. clear E P. unfold dispatch.
    destruct (Z.eqb_spec (go_optind (lc_getopt_long lc (tl argv)))
                         (Z.of_nat (List.length (tl argv)))) as [|Hne].
    { right. cbn. split; [exists []; reflexivity|eauto]. }
    destruct (Z.leb_spec 0 (go_optind (lc_getopt_long lc (tl argv)))) as [Hpos|].
    2:{ right. cbn. split; [exists []; reflexivity|eauto]. }
    destruct (nth_error _ _) as [dev|] eqn:D.
    2:{ right. cbn. split; [exists []; reflexivity|eauto]. }
    cbv zeta.
    destruct (Z.eqb_spec (go_optind (lc_getopt_long lc (tl argv)) + 1)
                         (Z.of_nat (List.length (tl argv)))) as [Hone|]; cbn [negb].
    2:{ right. cbn. split; [exists []; reflexivity|eauto]. }
    left. exists cmd, (set_devname ctl0 dev). unfold handler_run. cbv zeta.
    split; [lia|]. split; [exact C|]. split.
    + exists ctl0, dev. rewrite L. auto 10.
    + unfold main. cbv zeta.
      assert ((2 <=? Z.of_nat (List.length argv)) && not_an_option (nth 1 argv "") = true)
        as -> by (apply andb_true_iff; split; [apply Z.leb_le; lia|exact N2]).
      rewrite C. unfold main_options. cbv zeta. rewrite L. unfold dispatch.
      rewrite (proj2 (Z.eqb_neq _ _) Hne).
      rewrite (proj2 (Z.leb_le _ _) Hpos), D. cbv zeta.
      rewrite (proj2 (Z.eqb_eq _ _) Hone). cbn [negb app].
      destruct (snd (cmd_handler cmd (set_devname ctl0 dev))); reflexivity.
  - right. unfold main_options. cbv zeta.
    pose proof (option_loop_ends sys lc txt
                  (go_options (lc_getopt_long lc argv))
                  (mk_ctl "" 0 0 0 0 false)) as [[l P] E].
    destruct (option_loop _ _ _ _ _) as [t [ctl0|e]] eqn:L; cbn [fst snd] in *.
    + rewrite E. cbn. split; [exists []; reflexivity|eauto].
    + split; [eauto|]. destruct e as [s|d|x]; [subst; auto|eauto|contradiction].
Qed.

Lemma in_open_calls t d m : In (Ev_open d m) t <-> In (d, m) (open_calls t).
Proof.
  unfold open_calls. rewrite in_flat_map. split.
  - intros H. exists (Ev_open d m). cbn. auto.
  - intros (e & H & I). destruct e; cbn in I; try contradiction.
    destruct I as [I|[]]. now inversion I; subst.
Qed.

Lemma handlers_return_zero sys cmd ctl rc :
  In cmd (commands sys) -> snd (cmd_handler cmd ctl) = Val rc -> rc = 0.
Proof.
  intros [<- | [<- | []]]; cbn [cmd_handler].
  - destruct (blkzone_report_trace sys ctl) as (_ & _ & _ & _ & _ & R). apply R.
  - destruct (blkzone_reset_trace sys ctl) as (_ & _ & _ & R & _). apply R.
Qed.

(** X1: name_to_command returns an entry of the command table exactly
    for the names in it, the entry with that name, and nothing for every
    other name: only report and reset are commands. *)
Theorem name_to_command_finds_the_table_entry sys name :
  (forall c, name_to_command sys name = Some c
             <-> In c (commands sys) /\ cmd_name c = name) /\
  (name_to_command sys name = None <-> name <> "report" /\ name <> "reset").
Proof.
  split; [intros c; apply name_to_command_lookup|apply name_to_command_none].
Qed.

(** X2: every command that name_to_command accepts has its line, name
    and help text, in the text of usage; and usage ends with the failure
    status exactly when it writes to stderr. *)
Theorem usage_lists_every_command sys txt out name c :
  name_to_command sys name = Some c ->
  In (" " ++ pad_right 11 name ++ "  " ++ cmd_help c ++ newline)
     (fst (usage sys txt out)) /\
  (snd (usage sys txt out) = EXIT_FAILURE <-> out = stderr).
Proof.
  intros H. apply name_to_command_lookup in H as [I <-]. split.
  - unfold usage. cbn [fst]. apply in_or_app. right. apply in_or_app. left.
    apply (in_map (usage_command_line) _ _ I).
  - destruct out; cbn; split; intros Q; (reflexivity || discriminate Q).
Qed.

(** X3: when argv[1] does not start with a dash and is neither report
    nor reset, main ends with the error for an invalid command name, and
    nothing was printed, parsed or opened before. *)
Theorem main_rejects_unknown_command sys lc txt argv :
  (2 <= List.length argv)%nat ->
  not_an_option (nth 1 argv "") = true ->
  nth 1 argv "" <> "report" -> nth 1 argv "" <> "reset" ->
  main sys lc txt argv = ([], Usage_error (Not_valid_command_name (nth 1 argv ""))).
Proof.
  intros L N R1 R2. unfold main. cbv zeta.
  rewrite (proj2 (Z.leb_le 2 _)) by lia. rewrite N. cbn [andb].
  now rewrite (proj2 (name_to_command_none sys _) (conj R1 R2)).
Qed.

(** X4: an event of main other than printed text comes from the handler
    of the command named by argv[1], called after all options were
    accepted, on the control block of the options with the one operand as
    device name. *)
Theorem main_reaches_the_device_through_a_handler sys lc txt argv e :
  In e (fst (main sys lc txt argv)) ->
  device_event e = true ->
  let scan := lc_getopt_long lc (tl argv) in
  exists cmd ctl0 dev,
    name_to_command sys (nth 1 argv "") = Some cmd /\
    option_loop sys lc txt (go_options scan) (mk_ctl "" 0 0 0 0 false)
    = ([], inl ctl0) /\
    nth_error (go_argv scan) (Z.to_nat (go_optind scan)) = Some dev /\
    go_optind scan + 1 = Z.of_nat (List.length (tl argv)) /\
    In e (fst (cmd_handler cmd (set_devname ctl0 dev))).
Proof.
  intros I D scan.
  destruct (main_cases sys lc txt argv) as [(cmd & ctl & H) | [[lines P] _]].
  - destruct H as (_ & C & (ctl0 & dev & L & _ & A & O & ->) & M).
    rewrite M in I. cbn [fst] in I. exists cmd, ctl0, dev. auto.
  - rewrite P in I. apply in_map_iff in I as (l & <- & _). discriminate.
Qed.

Lemma report_open_calls sys ctl :
  open_calls (fst (blkzone_report sys ctl)) = [(devname ctl, O_RDONLY)].
Proof.
  destruct (blkzone_report_trace sys ctl) as (rest & -> & O & _).
  rewrite open_calls_app, O, app_nil_r. apply init_device_opens_once.
Qed.

(** X5: a file that main opens is the one operand left by the option
    scan, opened read-only by report and write-only by reset. *)
Theorem main_opens_the_operand sys lc txt argv d m :
  In (Ev_open d m) (fst (main sys lc txt argv)) ->
  let scan := lc_getopt_long lc (tl argv) in
  nth_error (go_argv scan) (Z.to_nat (go_optind scan)) = Some d /\
  go_optind scan + 1 = Z.of_nat (List.length (tl argv)) /\
  ((nth 1 argv "" = "report" /\ m = O_RDONLY) \/
   (nth 1 argv "" = "reset" /\ m = O_WRONLY)).
Proof.
  intros I scan.
  destruct (main_cases sys lc txt argv) as [(cmd & ctl & H) | [[lines P] _]].
  2:{ rewrite P in I. apply in_map_iff in I as (l & Q & _). discriminate. }
  destruct H as (_ & C & (ctl0 & dev & _ & _ & A & O & ->) & M).
  rewrite M in I. cbn [fst] in I. apply in_open_calls in I.
  apply name_to_command_lookup in C as [[<- | [<- | []]] N];
    cbn [cmd_handler cmd_name] in *.
  - rewrite report_open_calls in I. destruct I as [I|[]]. inversion I; subst.
    cbn [devname set_devname]. auto.
  - destruct (blkzone_reset_trace sys (set_devname ctl0 dev)) as (_ & Q & _).
    rewrite Q in I. cbn [devname set_devname] in I.
    destruct (snd (blkdev_chunk_sectors sys dev)) as [[|p|p]|x];
      cbn in I; try contradiction;
      destruct I as [I|[]]; inversion I; subst; auto.
Qed.

(** X6: when main ends with an exit status, the status is EXIT_SUCCESS:
    the handlers return 0 only, so the return of EXIT_FAILURE is never
    taken, and every failure is an exit through err or errx. *)
Theorem main_status_is_success sys lc txt argv s :
  snd (main sys lc txt argv) = Status s -> s = EXIT_SUCCESS.
Proof.
  destruct (main_cases sys lc txt argv) as [(cmd & ctl & H) | [_ [E | [E | [d E]]]]];
    try (rewrite E; congruence).
  destruct H as (_ & C & _ & M). rewrite M. cbn [snd].
  apply name_to_command_lookup in C as [I _].
  destruct (snd (cmd_handler cmd ctl)) as [rc|x] eqn:R; [|discriminate].
  rewrite (handlers_return_zero sys cmd ctl rc I R). cbn. congruence.
Qed.

(** The one request of a report that gets past the offset check. *)
Lemma report_request_of_open_device sys ctl fd total ssz :
  snd (init_device sys ctl O_RDONLY) = Val (fd, set_geometry ctl total ssz) ->
  (offset ctl >? total) = false ->
  exists n, 1 <= n <= 65536 /\
            report_requests (fst (blkzone_report sys ctl)) = [(fd, offset ctl, n)].
Proof.
  intros I O.
  destruct (init_device sys ctl O_RDONLY) as [t r] eqn:E. cbn [snd] in I. subst r.
  destruct (blkzone_report_run sys ctl t fd _ E O) as (n & w & N & R).
  cbv zeta in R. cbn [offset verbose devname set_geometry] in R.
  exists n. split; [eapply normalised_range; eauto|].
  rewrite R. cbn [fst].
  pose proof (init_device_is_quiet sys ctl O_RDONLY) as [Q _]. rewrite E in Q. cbn [fst] in Q.
  destruct (normalised_silent _ _ _ N) as (_ & W & _).
  rewrite !report_requests_app, Q, W.
  assert (report_requests
            (if fst (os_BLKREPORTZONE sys fd (offset ctl) n) =? -1 then []
             else fst (report_tail fd (verbose ctl)
                         (snd (os_BLKREPORTZONE sys fd (offset ctl) n)))) = []) as ->.
  { destruct (_ =? -1); [reflexivity|]. apply report_tail_silent. }
  reflexivity.
Qed.

(** X13: report opens the device once, read-only, sends no reset
    request and at most one report request. *)
Theorem report_device_access sys ctl :
  open_calls (fst (blkzone_report sys ctl)) = [(devname ctl, O_RDONLY)] /\
  reset_requests (fst (blkzone_report sys ctl)) = [] /\
  (List.length (report_requests (fst (blkzone_report sys ctl))) <= 1)%nat.
Proof.
  split; [apply report_open_calls|]. split.
  - destruct (blkzone_report_trace sys ctl) as (rest & -> & _ & R & _).
    rewrite reset_requests_app, R, app_nil_r. apply init_device_sends_nothing.
  - destruct (blkzone_report_cases sys ctl)
      as [(d & _ & -> & _) | (t & fd & total & ssz & I & O & _)]; [cbn; lia|].
    destruct (report_request_of_open_device sys ctl fd total ssz) as (n & _ & ->);
      [now rewrite I|exact O|cbn; lia].
Qed.

(** X14: report closes a descriptor, the one it opened, exactly when it
    returns; it returns 0 only, and then the run ends with the release of
    the buffer and the close. *)
Theorem report_releases_on_return sys ctl :
  closes (fst (blkzone_report sys ctl))
  = match snd (blkzone_report sys ctl) with
    | Val _ => [os_open sys (devname ctl) O_RDONLY]
    | Abort _ => []
    end /\
  (forall rc, snd (blkzone_report sys ctl) = Val rc ->
              rc = 0 /\
              exists t, fst (blkzone_report sys ctl)
                        = (t ++ [Ev_free;
                                 Ev_close (os_open sys (devname ctl) O_RDONLY)])%list).
Proof.
  destruct (blkzone_report_trace sys ctl) as (rest & T & _ & _ & C & R).
  split.
  - rewrite T, closes_app, C. destruct (init_device_opens_once sys ctl O_RDONLY) as [_ ->].
    reflexivity.
  - intros rc V. split; [apply R, V|]. clear T C R rest.
    destruct (blkzone_report_cases sys ctl)
      as [(d & Q & _) | (t & fd & total & ssz & I & O & _)]; [congruence|].
    pose proof (init_device_returns sys ctl O_RDONLY fd (set_geometry ctl total ssz)) as S.
    rewrite I in S. destruct (S eq_refl) as (Hfd & _). clear S. rewrite <- Hfd.
    destruct (blkzone_report_run sys ctl t fd _ I O) as (n & w & N & E).
    cbv zeta in E. rewrite E in V |- *. cbn [fst snd] in V |- *.
    destruct (_ =? -1); [discriminate|].
    unfold report_tail in V |- *. cbv zeta in V |- *. cbn [fst snd] in V |- *.
    destruct (snd (report_loop _ _ 0)); [|discriminate].
    eexists. rewrite !app_assoc. reflexivity.
Qed.

(** X10: with the device open, report ends with the offset error
    exactly when the offset is above the sector count; an offset equal to
    it is accepted, and the request starts at the offset as given. *)
Theorem report_offset_check sys ctl fd total ssz :
  snd (init_device sys ctl O_RDONLY) = Val (fd, set_geometry ctl total ssz) ->
  (snd (blkzone_report sys ctl)
   = Abort (Exit_failure (Offset_greater_than_device_size (devname ctl)))
   <-> total < offset ctl) /\
  (offset ctl <= total ->
   exists n, report_requests (fst (blkzone_report sys ctl)) = [(fd, offset ctl, n)]).
Proof.
  intros I. destruct (Z.gtb_spec (offset ctl) total) as [G|G].
  - split; [|lia]. split; [auto|intros _].
    unfold blkzone_report.
    destruct (init_device sys ctl O_RDONLY) as [t r]. cbn [snd] in I. subst r.
    rewrite bind_val. cbn [fst snd offset total_sectors set_geometry devname].
    now rewrite (proj2 (Z.gtb_lt _ _) G).
  - assert ((offset ctl >? total) = false) as O
        by (destruct (Z.gtb_spec (offset ctl) total); [lia|reflexivity]).
    split.
    + split; [|lia]. intros Q. exfalso.
      destruct (init_device sys ctl O_RDONLY) as [t r] eqn:E. cbn [snd] in I. subst r.
      destruct (blkzone_report_run sys ctl t fd _ E O) as (n & w & N & R).
      cbv zeta in R. rewrite R in Q. cbn [snd] in Q.
      destruct (_ =? -1); [discriminate|].
      unfold report_tail in Q. cbv zeta in Q. cbn [snd] in Q.
      destruct (report_loop_shape
                  (snd (os_BLKREPORTZONE sys fd (offset (set_geometry ctl total ssz)) n))
                  (Z.to_nat (zr_nr_zones
                     (snd (os_BLKREPORTZONE sys fd (offset (set_geometry ctl total ssz)) n))))
                  0) as (p & r & _ & _ & _ & S); [lia|].
      destruct r as [|z r]; [|destruct S as [(_ & S) | (_ & _ & S)]];
        rewrite S in Q; try discriminate.
      destruct (_ <=? _)%nat; discriminate.
    + intros _. destruct (report_request_of_open_device sys ctl fd total ssz I O)
        as (n & _ & R). eauto.
Qed.

(** The requests of reset by the way the run ends. *)
Lemma reset_requests_by_end sys ctl :
  (List.length (reset_requests (fst (blkzone_reset sys ctl))) <= 1)%nat /\
  (forall rc, snd (blkzone_reset sys ctl) = Val rc ->
              exists za, reset_requests (fst (blkzone_reset sys ctl)) = [za]).
Proof.
  pose proof (chunk_sectors_sends_nothing sys (devname ctl)) as [Rz _].
  pose proof (init_device_sends_nothing sys ctl O_WRONLY) as [Ri _].
  reset_run sys ctl; rewrite Hcs in *; cbn [fst snd] in *;
    try (rewrite Hin in *; cbn [fst snd] in * );
    rewrite ?reset_requests_app, ?Rz, ?Ri; cbn [app List.length];
    try (split; [lia|discriminate]).
  assert (reset_requests
            (if failed then []
             else ((if verbose ctl
                    then [Ev_printf (devname ctl ++ ": successfully reset in range from "
                                     ++ fmt_u64 (offset ctl) ++ ", to "
                                     ++ fmt_u64 (za_nr_sectors za))]
                    else []) ++ [Ev_close fd'])%list) = []) as ->
    by (destruct failed, (verbose ctl); reflexivity).
  cbn. split; [lia|eauto].
Qed.

(** X16: reset sends no report request and at most one reset request;
    it opens the device once, write-only, unless the zone size is
    unknown, and then not at all. *)
Theorem reset_device_access sys ctl :
  report_requests (fst (blkzone_reset sys ctl)) = [] /\
  open_calls (fst (blkzone_reset sys ctl))
  = match snd (blkdev_chunk_sectors sys (devname ctl)) with
    | Val 0 => []
    | _ => [(devname ctl, O_WRONLY)]
    end /\
  (List.length (reset_requests (fst (blkzone_reset sys ctl))) <= 1)%nat.
Proof.
  destruct (blkzone_reset_trace sys ctl) as (R & O & _).
  destruct (reset_requests_by_end sys ctl) as (L & _). auto.
Qed.

(** X17: reset closes a descriptor, the one it opened, exactly when it
    returns; it returns 0 only, and only after exactly one reset request. *)
Theorem reset_releases_on_return sys ctl :
  closes (fst (blkzone_reset sys ctl))
  = match snd (blkzone_reset sys ctl) with
    | Val _ => [os_open sys (devname ctl) O_WRONLY]
    | Abort _ => []
    end /\
  (forall rc, snd (blkzone_reset sys ctl) = Val rc ->
              rc = 0 /\
              exists za, reset_requests (fst (blkzone_reset sys ctl)) = [za]).
Proof.
  destruct (blkzone_reset_trace sys ctl) as (_ & _ & C & R & _).
  destruct (reset_requests_by_end sys ctl) as (_ & Q).
  split; [exact C|]. intros rc V. split; [apply R, V|apply (Q rc V)].
Qed.

(** X18: reset prints at most one line, and prints it exactly when it
    is verbose and returns. *)
Theorem reset_prints_only_when_verbose sys ctl :
  (List.length (stdout_of (fst (blkzone_reset sys ctl))) <= 1)%nat /\
  (stdout_of (fst (blkzone_reset sys ctl)) <> [] <->
   verbose ctl = true /\ snd (blkzone_reset sys ctl) = Val 0).
Proof.
  destruct (blkzone_reset_trace sys ctl) as (_ & _ & _ & _ & L & S). auto.
Qed.

(** X19: when the requested zones end inside the device (and nothing
    wraps), reset sends the range from the offset with length * zonesize
    sectors. *)
Theorem reset_inside_device_sends_whole_zones sys ctl zonesize fd total ssz :
  snd (blkdev_chunk_sectors sys (devname ctl)) = Val zonesize ->
  snd (init_device sys ctl O_WRONLY) = Val (fd, set_geometry ctl total ssz) ->
  0 < zonesize -> 0 <= offset ctl -> 0 <= length ctl ->
  Z.land (offset ctl) (u64 (zonesize - 1)) = 0 ->
  offset ctl + length ctl * zonesize <= total -> total < 2^64 ->
  reset_requests (fst (blkzone_reset sys ctl))
  = [mk_blk_zone_range (offset ctl) (length ctl * zonesize)].
Proof.
  intros Hz Hi Z0 O L A E T.
  assert (0 <= length ctl * zonesize) by nia.
  rewrite (reset_sent_requests sys ctl zonesize fd total ssz Hz) by (auto; lia).
  unfold reset_range, u64.
  rewrite (Z.mod_small (length ctl * zonesize)) by lia.
  rewrite (Z.mod_small (offset ctl + _)) by lia.
  destruct (Z.gtb_spec (offset ctl + length ctl * zonesize) total); [lia|].
  reflexivity.
Qed.

(** X20: with length 0, which is what main passes without -l, a reset
    that passes its checks sends a range of 0 sectors at the offset. *)
Theorem reset_without_length_sends_empty_range sys ctl zonesize fd total ssz :
  snd (blkdev_chunk_sectors sys (devname ctl)) = Val zonesize ->
  zonesize <> 0 ->
  snd (init_device sys ctl O_WRONLY) = Val (fd, set_geometry ctl total ssz) ->
  Z.land (offset ctl) (u64 (zonesize - 1)) = 0 ->
  0 <= offset ctl <= total -> total < 2^64 ->
  length ctl = 0 ->
  reset_requests (fst (blkzone_reset sys ctl)) = [mk_blk_zone_range (offset ctl) 0].
Proof.
  intros Hz NZ Hi A O T L.
  rewrite (reset_sent_requests sys ctl zonesize fd total ssz Hz NZ Hi A) by lia.
  unfold reset_range, u64. rewrite L. cbn [Z.mul].
  rewrite (Z.mod_small 0) by lia. rewrite Z.add_0_r.
  rewrite (Z.mod_small (offset ctl)) by lia.
  destruct (Z.gtb_spec (offset ctl) total); [lia|reflexivity].
Qed.

(** X12: reset ends with the unknown-zone-size error exactly when
    sysfs_init fails for the whole-disk number, or reading
    queue/chunk_sectors fails, or the value read is 0. *)
Theorem reset_unknown_zone_size_iff sys ctl :
  let devno := os_sysfs_devname_to_devno sys (devname ctl) in
  let disk := makedev (major devno) (Z.land (minor devno) (Z.lnot 15)) in
  snd (blkzone_reset sys ctl)
  = Abort (Exit_failure (Unable_to_determine_zone_size (devname ctl)))
  <-> (os_sysfs_init sys disk <> 0 \/
       fst (os_sysfs_read_u64 sys disk "queue/chunk_sectors") <> 0 \/
       snd (os_sysfs_read_u64 sys disk "queue/chunk_sectors") = 0).
Proof.
  intros devno disk.
  assert (snd (blkdev_chunk_sectors sys (devname ctl)) = Val 0
          <-> (os_sysfs_init sys disk <> 0 \/
               fst (os_sysfs_read_u64 sys disk "queue/chunk_sectors") <> 0 \/
               snd (os_sysfs_read_u64 sys disk "queue/chunk_sectors") = 0)) as <-.
  { unfold blkdev_chunk_sectors. cbv zeta. fold devno. fold disk. rewrite bind_call.
    destruct (Z.eqb_spec (os_sysfs_init sys disk) 0) as [E|E]; cbn [negb fst snd].
    - rewrite bind_call. cbn [fst snd ret].
      destruct (Z.eqb_spec (fst (os_sysfs_read_u64 sys disk "queue/chunk_sectors")) 0).
      + split; [intros Q; inversion Q; auto|]. intros [Q|[Q|Q]]; congruence.
      + split; auto.
    - split; auto. }
  reset_run sys ctl; rewrite Hcs; cbn [snd].
  - split; reflexivity.
  - split; intros Q; [|inversion Q; contradiction].
    inversion Q. subst. discriminate.
  - split; intros Q; [discriminate|inversion Q; contradiction].
  - split; intros Q; [discriminate|inversion Q; contradiction].
  - split; intros Q; [destruct failed; discriminate|inversion Q; contradiction].
Qed.

(** *** Device numbers, bit by bit *)

Lemma testbit_mask lo len i :
  0 <= lo -> 0 <= len ->
  Z.testbit (Z.shiftl (Z.ones len) lo) i = (lo <=? i) && (i <? lo + len).
Proof.
  intros Hlo Hlen. destruct (Z.leb_spec lo i) as [L|L]; cbn [andb].
  - rewrite Z.shiftl_spec by lia. rewrite Z.testbit_ones_nonneg by lia.
    destruct (Z.ltb_spec (i - lo) len), (Z.ltb_spec i (lo + len)); lia || reflexivity.
  - destruct (Z.neg_nonneg_cases i) as [N|N].
    + now rewrite Z.testbit_neg_r.
    + rewrite Z.shiftl_spec by lia. apply Z.testbit_neg_r. lia.
Qed.

Lemma testbit_above x k n :
  0 <= x < 2^k -> k <= n -> Z.testbit x n = false.
Proof.
  intros [X0 X1] K. destruct (Z.eq_dec x 0) as [->|NZ]; [apply Z.bits_0|].
  apply Z.bits_above_log2; [lia|].
  assert (0 <= k) by (destruct (Z.neg_nonneg_cases k) as [N|N];
                      [rewrite Z.pow_neg_r in X1 by lia; lia|lia]).
  apply Z.lt_le_trans with k; [|lia]. apply Z.log2_lt_pow2; lia.
Qed.

Ltac split_bits :=
  repeat match goal with
         | |- context [?a <? ?b] => destruct (Z.ltb_spec a b)
         | |- context [?a <=? ?b] => destruct (Z.leb_spec a b)
         end;
  try lia;
  cbn [andb orb];
  rewrite ?andb_true_r, ?andb_false_r, ?orb_false_r, ?orb_false_l.

Lemma testbit_major dev n :
  0 <= n ->
  Z.testbit (major dev) n
  = if n <? 12 then Z.testbit dev (n + 8)
    else if n <? 32 then Z.testbit dev (n + 32) else false.
Proof.
  intros N. unfold major.
  change 4294963200 with (Z.shiftl (Z.ones 20) 12).
  change 4095 with (Z.shiftl (Z.ones 12) 0).
  rewrite Z.lor_spec, !Z.land_spec, !Z.shiftr_spec, !testbit_mask by lia.
  split_bits; reflexivity.
Qed.

Lemma testbit_minor dev n :
  0 <= n ->
  Z.testbit (minor dev) n
  = if n <? 8 then Z.testbit dev n
    else if n <? 32 then Z.testbit dev (n + 12) else false.
Proof.
  intros N. unfold minor.
  change 4294967040 with (Z.shiftl (Z.ones 24) 8).
  change 255 with (Z.shiftl (Z.ones 8) 0).
  rewrite Z.lor_spec, !Z.land_spec, !Z.shiftr_spec, !testbit_mask by lia.
  split_bits; reflexivity.
Qed.

Lemma testbit_makedev maj min k :
  0 <= maj < 2^32 -> 0 <= min < 2^32 -> 0 <= k ->
  Z.testbit (makedev maj min) k
  = if k <? 8 then Z.testbit min k
    else if k <? 20 then Z.testbit maj (k - 8)
    else if k <? 44 then Z.testbit min (k - 12)
    else if k <? 64 then Z.testbit maj (k - 32) else false.
Proof.
  intros HM Hm K. unfold makedev, u32.
  rewrite !Z.mod_small by lia.
  change 4294963200 with (Z.shiftl (Z.ones 20) 12).
  change 4294967040 with (Z.shiftl (Z.ones 24) 8).
  change 4095 with (Z.shiftl (Z.ones 12) 0).
  change 255 with (Z.shiftl (Z.ones 8) 0).
  rewrite !Z.lor_spec, !Z.land_spec, !testbit_mask by lia.
  destruct (Z.ltb_spec k 8).
  { rewrite !Z.shiftl_spec by lia. rewrite !Z.land_spec, !testbit_mask by lia.
    rewrite !(Z.testbit_neg_r _ (k - _)) by lia. split_bits; reflexivity. }
  rewrite !Z.shiftl_spec by lia. rewrite !Z.land_spec, !testbit_mask by lia.
  destruct (Z.ltb_spec k 12).
  { rewrite !(Z.testbit_neg_r _ (k - 12)), !(Z.testbit_neg_r _ (k - 32)) by lia.
    split_bits; reflexivity. }
  destruct (Z.ltb_spec k 32).
  { rewrite !(Z.testbit_neg_r _ (k - 32)) by lia. split_bits; reflexivity. }
  split_bits; try reflexivity.
  all: rewrite ?(testbit_above maj 32), ?(testbit_above min 32) by lia; reflexivity.
Qed.

Lemma below_pow2_of_bits x k :
  0 <= k -> 0 <= x -> (forall n, k <= n -> Z.testbit x n = false) -> x < 2^k.
Proof.
  intros K X B.
  assert (x mod 2^k = x) as <-.
  { apply Z.bits_inj'. intros n N. destruct (Z.lt_ge_cases n k).
    - now rewrite Z.mod_pow2_bits_low.
    - rewrite Z.mod_pow2_bits_high by lia. symmetry. apply B. lia. }
  apply Z.mod_pos_bound. apply Z.pow_pos_nonneg; lia.
Qed.

Lemma major_range dev : 0 <= major dev < 2^32.
Proof.
  assert (0 <= major dev) as N.
  { unfold major. apply Z.lor_nonneg. split; apply Z.land_nonneg; right; lia. }
  split; [exact N|]. apply below_pow2_of_bits; [lia|exact N|].
  intros n L. rewrite testbit_major by lia. split_bits; reflexivity.
Qed.

Lemma minor_range dev : 0 <= minor dev < 2^32.
Proof.
  assert (0 <= minor dev) as N.
  { unfold minor. apply Z.lor_nonneg. split; apply Z.land_nonneg; right; lia. }
  split; [exact N|]. apply below_pow2_of_bits; [lia|exact N|].
  intros n L. rewrite testbit_minor by lia. split_bits; reflexivity.
Qed.

Lemma major_makedev maj min :
  0 <= maj < 2^32 -> 0 <= min < 2^32 -> major (makedev maj min) = maj.
Proof.
  intros HM Hm. apply Z.bits_inj'. intros n N.
  rewrite testbit_major by lia.
  destruct (Z.ltb_spec n 12); [|destruct (Z.ltb_spec n 32)].
  - rewrite testbit_makedev by lia. split_bits. f_equal. lia.
  - rewrite testbit_makedev by lia. split_bits. f_equal. lia.
  - symmetry. apply (testbit_above maj 32); lia.
Qed.

Lemma minor_makedev maj min :
  0 <= maj < 2^32 -> 0 <= min < 2^32 -> minor (makedev maj min) = min.
Proof.
  intros HM Hm. apply Z.bits_inj'. intros n N.
  rewrite testbit_minor by lia.
  destruct (Z.ltb_spec n 8); [|destruct (Z.ltb_spec n 32)].
  - rewrite testbit_makedev by lia. split_bits. reflexivity.
  - rewrite testbit_makedev by lia. split_bits. f_equal. lia.
  - symmetry. apply (testbit_above min 32); lia.
Qed.

Lemma clear_low_four_bits x : Z.land x (Z.lnot 15) = 16 * (x / 16).
Proof.
  rewrite <- Z.ldiff_land. change 15 with (Z.ones 4).
  rewrite Z.ldiff_ones_r by lia.
  rewrite Z.shiftr_div_pow2, Z.shiftl_mul_pow2 by lia. change (2^4) with 16. lia.
Qed.

(** X11: the device number blkdev_chunk_sectors hands to sysfs has the
    major number of the device and its minor number rounded down to a
    multiple of 16. *)
Theorem chunk_sectors_asks_the_whole_disk sys dname d :
  In (Ev_sysfs_init d) (fst (blkdev_chunk_sectors sys dname)) \/
  In (Ev_sysfs_read d "queue/chunk_sectors") (fst (blkdev_chunk_sectors sys dname)) ->
  let devno := os_sysfs_devname_to_devno sys dname in
  major d = major devno /\ minor d = 16 * (minor devno / 16).
Proof.
  intros H devno.
  assert (d = makedev (major devno) (Z.land (minor devno) (Z.lnot 15))) as ->.
  { unfold blkdev_chunk_sectors in H. cbv zeta in H. fold devno in H.
    rewrite bind_call in H. destruct (negb _); cbn [fst snd] in H.
    - cbn in H. destruct H as [[Q|[]]|[Q|[]]]; now inversion Q.
    - rewrite bind_call in H. cbn in H.
      destruct H as [[Q|[Q|[]]]|[Q|[Q|[]]]]; now inversion Q. }
  pose proof (major_range devno) as HM.
  pose proof (minor_range devno) as Hm.
  rewrite clear_low_four_bits.
  assert (0 <= 16 * (minor devno / 16) < 2^32) as Hm'.
  { pose proof (Z.mul_div_le (minor devno) 16).
    assert (0 <= minor devno / 16) by (apply Z.div_pos; lia). lia. }
  split; [apply major_makedev|apply minor_makedev]; assumption.
Qed.

(** main with a known command, options that parse, and one operand. *)
Lemma main_with_operand sys lc txt argv cmd ctl0 dev :
  let scan := lc_getopt_long lc (tl argv) in
  (2 <= List.length argv)%nat ->
  not_an_option (nth 1 argv "") = true ->
  name_to_command sys (nth 1 argv "") = Some cmd ->
  option_loop sys lc txt (go_options scan) (mk_ctl "" 0 0 0 0 false) = ([], inl ctl0) ->
  0 <= go_optind scan ->
  nth_error (go_argv scan) (Z.to_nat (go_optind scan)) = Some dev ->
  go_optind scan + 1 = Z.of_nat (List.length (tl argv)) ->
  main sys lc txt argv
  = (fst (cmd_handler cmd (set_devname ctl0 dev)),
     match snd (cmd_handler cmd (set_devname ctl0 dev)) with
     | Val rc => Status (if rc <? 0 then EXIT_FAILURE else EXIT_SUCCESS)
     | Abort x => Stopped x
     end).
Proof.
  intros scan L N C O P D A. subst scan. unfold main. cbv zeta.
  rewrite (proj2 (Z.leb_le 2 _)) by lia. rewrite N. cbn [andb]. rewrite C.
  unfold main_options. cbv zeta. rewrite O. unfold dispatch.
  rewrite (proj2 (Z.eqb_neq _ _)) by lia.
  rewrite (proj2 (Z.leb_le _ _) P), D. cbv zeta.
  rewrite (proj2 (Z.eqb_eq _ _) A). cbn [negb app].
  destruct (snd (cmd_handler cmd (set_devname ctl0 dev))); reflexivity.
Qed.

(** X7: blkzone report <device> without options: when the device opens,
    main asks the kernel for one zone from sector 0, with a buffer for one
    descriptor. *)
Theorem main_report_without_options sys lc txt argv dev fd total ssz :
  let scan := lc_getopt_long lc (tl argv) in
  (2 <= List.length argv)%nat ->
  nth 1 argv "" = "report" ->
  go_options scan = [] ->
  0 <= go_optind scan ->
  nth_error (go_argv scan) (Z.to_nat (go_optind scan)) = Some dev ->
  go_optind scan + 1 = Z.of_nat (List.length (tl argv)) ->
  snd (init_device sys (mk_ctl dev 0 0 0 0 false) O_RDONLY)
  = Val (fd, mk_ctl dev total ssz 0 0 false) ->
  0 <= total ->
  report_requests (fst (main sys lc txt argv)) = [(fd, 0, 1)] /\
  allocations (fst (main sys lc txt argv))
  = [sizeof_blk_zone_report + sizeof_blk_zone].
Proof.
  intros scan L N G P D A I T.
  rewrite (main_with_operand sys lc txt argv
             (mk_command "report" (blkzone_report sys)
                         "Report zone information about the given device")
             (mk_ctl "" 0 0 0 0 false) dev); auto.
  2:{ now rewrite N. }
  2:{ now rewrite N. }
  2:{ fold scan. now rewrite G. }
  cbn [cmd_handler].
  change (set_devname (mk_ctl "" 0 0 0 0 false) dev) with (mk_ctl dev 0 0 0 0 false).
  set (ctl := mk_ctl dev 0 0 0 0 false) in *.
  destruct (init_device sys ctl O_RDONLY) as [t r] eqn:E. cbn [snd] in I. subst r.
  assert ((offset (mk_ctl dev total ssz 0 0 false)
           >? total_sectors (mk_ctl dev total ssz 0 0 false)) = false) as O.
  { cbn. destruct (Z.gtb_spec 0 total); [lia|reflexivity]. }
  destruct (blkzone_report_run sys ctl t fd _ E O) as (n & w & Nn & R).
  cbv zeta in R. cbn [offset verbose devname length] in R, Nn.
  assert (n = 1 /\ w = []) as [-> ->].
  { unfold normalised in Nn. change MAX_REPORT_LEN with 65536 in Nn.
    destruct Nn as [(_ & -> & ->) | [(? & _) | (? & _)]]; auto; lia. }
  rewrite R. cbn [fst].
  pose proof (init_device_cases sys ctl O_RDONLY) as C. rewrite E in C.
  inversion C as [|? ? ? ? _ _ Hr _ _ Ha]; subst.
  rewrite !report_requests_app, !allocations_app, Hr, Ha.
  assert (report_requests (if fst (os_BLKREPORTZONE sys fd 0 1) =? -1 then []
                           else fst (report_tail fd false (snd (os_BLKREPORTZONE sys fd 0 1))))
          = [] /\
          allocations (if fst (os_BLKREPORTZONE sys fd 0 1) =? -1 then []
                       else fst (report_tail fd false (snd (os_BLKREPORTZONE sys fd 0 1))))
          = []) as [-> ->].
  { destruct (_ =? -1); [auto|]. split; apply report_tail_silent. }
  cbn. auto.
Qed.

Lemma init_device_set_verbose sys ctl mode :
  init_device sys (set_verbose ctl) mode =
  (fst (init_device sys ctl mode),
   match snd (init_device sys ctl mode) with
   | Val (fd, c) => Val (fd, set_verbose c)
   | Abort x => Abort x
   end).
Proof.
  rewrite !init_device_run. cbv zeta. cbn [devname set_verbose].
  repeat match goal with |- context [if ?b then _ else _] => destruct b end;
    reflexivity.
Qed.

Lemma normalised_fun len n w n' w' :
  normalised len n w -> normalised len n' w' -> n = n' /\ w = w'.
Proof.
  unfold normalised. change MAX_REPORT_LEN with 65536.
  intros [(? & -> & ->) | [(? & -> & ->) | (? & -> & ->)]]
         [(? & -> & ->) | [(? & -> & ->) | (? & -> & ->)]];
    split; try reflexivity; lia.
Qed.

(** X15: a verbose report ends as the plain one and sends the same
    request; its output is that of the plain one with one line in front,
    the count of the summary line once more (as %d), and it is empty
    when the plain output is. *)
Theorem report_verbose_adds_one_line sys ctl :
  verbose ctl = false ->
  let quiet := blkzone_report sys ctl in
  let loud := blkzone_report sys (set_verbose ctl) in
  snd loud = snd quiet /\
  report_requests (fst loud) = report_requests (fst quiet) /\
  match stdout_of (fst quiet) with
  | [] => stdout_of (fst loud) = []
  | summary :: lines =>
      exists n,
        summary = "Zones returned: " ++ fmt_u 0 n ++ newline /\
        stdout_of (fst loud)
        = ("Found " ++ fmt_d n ++ " zones" ++ newline) :: summary :: lines
  end.
Proof.
  intros V quiet loud. subst quiet loud.
  pose proof (init_device_set_verbose sys ctl O_RDONLY) as IV.
  pose proof (init_device_is_quiet sys ctl O_RDONLY) as [Qr Qs].
  destruct (init_device sys ctl O_RDONLY) as [t [[fd c]|x]] eqn:I;
    cbn [fst snd] in IV, Qr, Qs.
  2:{ unfold blkzone_report. rewrite I, IV, !bind_abort. cbn [fst snd].
      rewrite Qs. auto. }
  assert (verbose c = false) as Vc.
  { pose proof (init_device_returns sys ctl O_RDONLY fd c) as S. rewrite I in S.
    destruct (S eq_refl) as (_ & _ & _ & _ & _ & _ & -> & _). exact V. }
  destruct (offset c >? total_sectors c) eqn:O.
  { unfold blkzone_report. rewrite I, IV, !bind_val.
    cbn [fst snd offset total_sectors set_verbose devname]. rewrite O.
    cbn [errx stop fst snd]. rewrite app_nil_r, Qs. auto. }
  destruct (blkzone_report_run sys ctl t fd c I O) as (n & w & N & E).
  destruct (blkzone_report_run sys (set_verbose ctl) t fd (set_verbose c) IV O)
    as (n' & w' & N' & E').
  cbn [length set_verbose] in N'.
  destruct (normalised_fun _ _ _ _ _ N' N) as [-> ->].
  destruct (normalised_silent _ _ _ N) as (Ws & Wr & _).
  cbv zeta in E, E'. cbn [offset devname verbose set_verbose] in E'.
  rewrite E, E', Vc. cbn [fst snd].
  rewrite !report_requests_app, !stdout_of_app, Qr, Qs, Wr, Ws. cbn [app].
  destruct (fst (os_BLKREPORTZONE sys fd (offset c) n) =? -1).
  { cbn. auto. }
  destruct (report_tail_silent fd true (snd (os_BLKREPORTZONE sys fd (offset c) n)))
    as (_ & -> & _).
  destruct (report_tail_silent fd false (snd (os_BLKREPORTZONE sys fd (offset c) n)))
    as (_ & -> & _).
  rewrite !stdout_of_report_tail.
  unfold report_tail. cbv zeta. cbn [fst snd stdout_of flat_map app report_header].
  repeat split; auto. eexists. split; reflexivity.
Qed.

Lemma usage_lists_every_command_witness :
  In (" " ++ pad_right 11 "reset" ++ "  " ++ "Reset a range of zones." ++ newline)
     (fst (usage disk sample_texts stdout)) /\
  (snd (usage disk sample_texts stdout) = EXIT_FAILURE <-> stdout = stderr).
Proof.
  apply (usage_lists_every_command disk sample_texts stdout "reset"
           (mk_command "reset" (blkzone_reset disk) "Reset a range of zones.")).
  reflexivity.
Defined.

Lemma main_rejects_unknown_command_witness :
  main disk (sample_libc [] 1) sample_texts unknown_argv
  = ([], Usage_error (Not_valid_command_name "frobnicate")).
Proof.
  apply (main_rejects_unknown_command disk (sample_libc [] 1) sample_texts unknown_argv).
  - cbn. lia.
  - reflexivity.
  - discriminate.
  - discriminate.
Defined.

Lemma main_reaches_the_device_through_a_handler_witness :
  let scan := lc_getopt_long (sample_libc [] 1) (tl report_argv) in
  exists cmd ctl0 dev,
    name_to_command disk (nth 1 report_argv "") = Some cmd /\
    option_loop disk (sample_libc [] 1) sample_texts (go_options scan)
                (mk_ctl "" 0 0 0 0 false)
    = ([], inl ctl0) /\
    nth_error (go_argv scan) (Z.to_nat (go_optind scan)) = Some dev /\
    go_optind scan + 1 = Z.of_nat (List.length (tl report_argv)) /\
    In (Ev_report_zones 3 0 1) (fst (cmd_handler cmd (set_devname ctl0 dev))).
Proof.
  apply (main_reaches_the_device_through_a_handler
           disk (sample_libc [] 1) sample_texts report_argv (Ev_report_zones 3 0 1)).
  - vm_compute. tauto.
  - reflexivity.
Defined.

Lemma main_opens_the_operand_witness :
  let scan := lc_getopt_long (sample_libc [] 1) (tl report_argv) in
  nth_error (go_argv scan) (Z.to_nat (go_optind scan)) = Some "/dev/sdb" /\
  go_optind scan + 1 = Z.of_nat (List.length (tl report_argv)) /\
  ((nth 1 report_argv "" = "report" /\ O_RDONLY = O_RDONLY) \/
   (nth 1 report_argv "" = "reset" /\ O_RDONLY = O_WRONLY)).
Proof.
  apply (main_opens_the_operand disk (sample_libc [] 1) sample_texts report_argv
           "/dev/sdb" O_RDONLY).
  vm_compute. tauto.
Defined.

Lemma main_status_is_success_witness : 0 = EXIT_SUCCESS.
Proof.
  apply (main_status_is_success disk (sample_libc [] 1) sample_texts report_argv 0).
  reflexivity.
Defined.

Lemma main_report_without_options_witness :
  report_requests (fst (main disk (sample_libc [] 1) sample_texts report_argv))
  = [(3, 0, 1)] /\
  allocations (fst (main disk (sample_libc [] 1) sample_texts report_argv))
  = [sizeof_blk_zone_report + sizeof_blk_zone].
Proof.
  apply (main_report_without_options disk (sample_libc [] 1) sample_texts report_argv
           "/dev/sdb" 3 1000000 512).
  - cbn. lia.
  - reflexivity.
  - reflexivity.
  - discriminate.
  - reflexivity.
  - reflexivity.
  - reflexivity.
  - discriminate.
Defined.

Lemma init_device_success_witness :
  3 = os_open disk "/dev/sdb" O_RDONLY /\ 0 <= 3 /\
  fst (os_fstat disk 3) <> -1 /\
  S_ISBLK (snd (os_fstat disk 3)) = true /\
  fst (os_blkdev_get_sectors disk 3) = 0 /\
  fst (os_blkdev_get_sector_size disk 3) = 0 /\
  mk_ctl "/dev/sdb" 1000000 512 0 4 false
  = set_geometry (sample_ctl 0 4) (snd (os_blkdev_get_sectors disk 3))
                 (snd (os_blkdev_get_sector_size disk 3)) /\
  fst (init_device disk (sample_ctl 0 4) O_RDONLY)
  = [Ev_open "/dev/sdb" O_RDONLY; Ev_fstat 3; Ev_get_sectors 3; Ev_get_sector_size 3].
Proof.
  apply (init_device_success disk (sample_ctl 0 4) O_RDONLY 3
           (mk_ctl "/dev/sdb" 1000000 512 0 4 false)).
  reflexivity.
Defined.

Lemma init_device_asks_block_devices_only_witness :
  3 = os_open disk "/dev/sdb" O_WRONLY /\ 0 <= 3 /\
  fst (os_fstat disk 3) <> -1 /\
  S_ISBLK (snd (os_fstat disk 3)) = true.
Proof.
  apply (init_device_asks_block_devices_only disk (sample_ctl 0 4) O_WRONLY 3).
  left. vm_compute. tauto.
Defined.

Lemma chunk_sectors_asks_the_whole_disk_witness :
  major 2064 = major 2067 /\ minor 2064 = 16 * (minor 2067 / 16).
Proof.
  apply (chunk_sectors_asks_the_whole_disk disk_partition "/dev/sdb3" 2064).
  left. vm_compute. tauto.
Defined.

Lemma report_offset_check_witness :
  (snd (blkzone_report disk (sample_ctl 1000000 1))
   = Abort (Exit_failure (Offset_greater_than_device_size "/dev/sdb"))
   <-> 1000000 < 1000000) /\
  (1000000 <= 1000000 ->
   exists n, report_requests (fst (blkzone_report disk (sample_ctl 1000000 1)))
             = [(3, 1000000, n)]).
Proof.
  apply (report_offset_check disk (sample_ctl 1000000 1) 3 1000000 512).
  reflexivity.
Defined.

Lemma report_verbose_adds_one_line_witness :
  let quiet := blkzone_report disk (sample_ctl 0 2) in
  let loud := blkzone_report disk (set_verbose (sample_ctl 0 2)) in
  snd loud = snd quiet /\
  report_requests (fst loud) = report_requests (fst quiet) /\
  match stdout_of (fst quiet) with
  | [] => stdout_of (fst loud) = []
  | summary :: lines =>
      exists n,
        summary = "Zones returned: " ++ fmt_u 0 n ++ newline /\
        stdout_of (fst loud)
        = ("Found " ++ fmt_d n ++ " zones" ++ newline) :: summary :: lines
  end.
Proof.
  apply (report_verbose_adds_one_line disk (sample_ctl 0 2)).
  reflexivity.
Defined.

Lemma reset_inside_device_sends_whole_zones_witness :
  reset_requests (fst (blkzone_reset disk (sample_ctl 65536 3)))
  = [mk_blk_zone_range 65536 (3 * 65536)].
Proof.
  apply (reset_inside_device_sends_whole_zones disk (sample_ctl 65536 3)
           65536 3 1000000 512); try reflexivity; try discriminate.
Defined.

Lemma reset_without_length_sends_empty_range_witness :
  reset_requests (fst (blkzone_reset disk (sample_ctl 65536 0)))
  = [mk_blk_zone_range 65536 0].
Proof.
  apply (reset_without_length_sends_empty_range disk (sample_ctl 65536 0)
           65536 3 1000000 512); try reflexivity; try discriminate.
  split; discriminate.
Defined.
